(** * WorkElate agent: the plan extractor and the decision store of [agent.py]

    A shallow embedding of the pure part of [planner] (the text-parsing
    loop and the padding loop) and of the six database functions
    ([init_db], [save_decision], [save_full_plan], [delete_decision],
    [get_recent_decisions], [get_task_plan]), followed by the properties
    of the specification that concern them.

    Conventions.
    - A Python [str] is a [list ascii]; a character is a code point below
      256, and the character tables ([isspace], [isdigit]) are the ones of
      CPython restricted to that range.
    - The SQLite database is a record of two tables, each the list of its
      rows in rowid order (the order of a table scan).  Every function of
      the source that opens a connection takes the database and returns the
      new one.  TEXT values are taken without the NUL character, on which
      SQLite leaves string expressions undefined.
    - The clock ([datetime.now()]) and the model gateway ([llm.invoke]) are
      inputs: the timestamp is an argument of [save_decision], the
      completion text an argument of [extract_plan]. *)

From Stdlib Require Import Ascii String DecimalString.
From Stdlib Require Import List Arith ZArith Bool Lia.
From Stdlib Require Import Sorting.Sorted Sorting.Permutation.
From Stdlib Require Import Recdef FunInd.
Import ListNotations.

(** ** Python strings *)

Module PyStr.

Definition str := list ascii.

(** String literals of the source are written [lit "..."]. *)
Definition lit (s : string) : str := list_ascii_of_string s.

Definition chr (n : nat) : ascii := ascii_of_nat n.
Definition ord (c : ascii) : nat := nat_of_ascii c.

Definition NL : ascii := chr 10.      (* '\n' *)
Definition DOT : ascii := chr 46.     (* '.'  *)
Definition BAR : ascii := chr 124.    (* '|'  *)

Definition in_range (lo hi n : nat) : bool := (lo <=? n) && (n <=? hi).

(** [str.isspace] on one character: U+0009..U+000D, U+001C..U+001F,
    U+0020, U+0085 and U+00A0 are the white-space code points below 256. *)
Definition isspace (c : ascii) : bool :=
  let n := ord c in
  in_range 9 13 n || in_range 28 32 n || (n =? 133) || (n =? 160).

(** [str.isdigit] on one character: 0-9, and the superscript digits
    U+00B2, U+00B3 and U+00B9, which CPython also counts as digits. *)
Definition isdigit (c : ascii) : bool :=
  let n := ord c in
  in_range 48 57 n || (n =? 178) || (n =? 179) || (n =? 185).

(** [s.lstrip()], [s.rstrip()], [s.strip()] *)
Fixpoint lstrip (s : str) : str :=
  match s with
  | [] => []
  | c :: s' => if isspace c then lstrip s' else s
  end.

Definition rstrip (s : str) : str := rev (lstrip (rev s)).

Definition strip (s : str) : str := rstrip (lstrip s).

(** [s.split(sep)] for a one-character separator: every occurrence
    splits, empty pieces are kept, and the empty string gives [['']]. *)
Fixpoint split (sep : ascii) (s : str) : list str :=
  match s with
  | [] => [[]]
  | c :: s' =>
      if Ascii.eqb c sep then [] :: split sep s'
      else match split sep s' with
           | w :: ws => (c :: w) :: ws
           | [] => [[c]]
           end
  end.

(** [s.split(sep, 1)]: at most one split, at the first occurrence. *)
Fixpoint split1 (sep : ascii) (s : str) : list str :=
  match s with
  | [] => [[]]
  | c :: s' =>
      if Ascii.eqb c sep then [[]; s']
      else match split1 sep s' with
           | w :: ws => (c :: w) :: ws
           | [] => [[c]]
           end
  end.

(** [sep.join(l)] for a one-character separator *)
Fixpoint join (sep : ascii) (l : list str) : str :=
  match l with
  | [] => []
  | [w] => w
  | w :: ws => w ++ sep :: join sep ws
  end.

(** [c in s] for a character [c] *)
Definition contains_char (c : ascii) (s : str) : bool :=
  existsb (Ascii.eqb c) s.

(** [s[:n]] *)
Definition prefix (n : nat) (s : str) : str := firstn n s.

Definition str_eqb (a b : str) : bool :=
  if list_eq_dec ascii_dec a b then true else false.

(** The truth value of a string: it is not empty. *)
Definition nonempty (s : str) : bool :=
  match s with
  | [] => false
  | _ :: _ => true
  end.

(** A computation that may raise: [None] is an exception (the only one
    the modelled code could raise is IndexError). *)
Definition exn (A : Type) : Type := option A.

Definition ret {A} (x : A) : exn A := Some x.

Definition bind {A B} (m : exn A) (k : A -> exn B) : exn B :=
  match m with
  | Some x => k x
  | None => None
  end.

(** [l[i]] for [i >= 0]: IndexError when [i] is out of range. *)
Definition index {A} (l : list A) (i : nat) : exn A := nth_error l i.

End PyStr.

Notation "x <- m ;; k" := (PyStr.bind m (fun x => k))
  (at level 61, m at next level, right associativity).

Import PyStr.

(** ** The plan extractor: lines 81-98 of [planner] *)

Module Planner.

Definition FILLER : str := lit "Review and validate implementation".

(** The body of the [if line and line[0].isdigit() and len(line) > 5]
    block up to the [break] test: the plan after the possible
    [plan.append(step_text)]. *)
Definition extract_step (line : str) (plan : list str) : exn (list str) :=
  if contains_char DOT (prefix 10 line) then
    let parts := split1 DOT line in
    if 1 <? length parts then
      p1 <- index parts 1 ;;
      let step_text := strip p1 in
      if nonempty step_text && (10 <? length step_text)
      then ret (plan ++ [step_text])
      else ret plan
    else ret plan
  else ret plan.

(** The guard of that block, on the stripped line; [and] evaluates its
    right operand only when the left one is true. *)
Definition candidate (line : str) : exn bool :=
  if nonempty line then
    c <- index line 0 ;;
    if isdigit c then ret (5 <? length line) else ret false
  else ret false.

(** [for line in plan_text.split('\n'): ...], with its [break]. *)
Fixpoint scan_lines (lines : list str) (plan : list str) : exn (list str) :=
  match lines with
  | [] => ret plan
  | l :: rest =>
      let line := strip l in
      b <- candidate line ;;
      if b then
        plan' <- extract_step line plan ;;
        if 5 <=? length plan' then ret plan'
        else scan_lines rest plan'
      else scan_lines rest plan
  end.

(** [while len(plan) < 3: plan.append(FILLER)] *)
Function pad (plan : list str) {measure (fun p => 3 - length p) plan}
  : list str :=
  if length plan <? 3 then pad (plan ++ [FILLER]) else plan.
Proof.
  intros plan H. apply Nat.ltb_lt in H.
  rewrite length_app. cbn [length]. lia.
Defined.

(** The pure part of [planner]: from the completion text
    ([llm.invoke(prompt).content]) to the value of [plan] that is saved
    and returned. *)
Definition extract_plan (content : str) : exn (list str) :=
  let plan_text := strip content in
  plan <- scan_lines (split NL plan_text) [] ;;
  ret (pad plan).

End Planner.

Import Planner.

(** ** The decision store: the SQLite database [agent_decisions.db] *)

Module Store.

#[local] Open Scope Z_scope.

(** A row of [decisions (id INTEGER PRIMARY KEY, timestamp TEXT, task
    TEXT, decision TEXT, reasoning TEXT)]; it is also the dictionary that
    [get_recent_decisions] builds from a row, which has the same five
    fields. *)
Record decision_row : Type := mk_decision
  { d_id : Z; d_timestamp : str; d_task : str;
    d_decision : str; d_reasoning : str }.

(** A row of [tasks (id INTEGER PRIMARY KEY, task TEXT, plan TEXT,
    status TEXT)].  The schema has no constraint on [task]. *)
Record task_row : Type := mk_task
  { t_id : Z; t_task : str; t_plan : str; t_status : str }.

Record db : Type := mk_db
  { decisions : list decision_row; tasks : list task_row }.

Definition empty_db : db := mk_db [] [].

(** [init_db]: both [CREATE TABLE IF NOT EXISTS]; [None] is the database
    file that does not exist yet. *)
Definition init_db (file : option db) : db :=
  match file with
  | None => empty_db
  | Some s => s
  end.

(** The rowid SQLite gives to a row inserted without an id: 1 in an empty
    table, else one more than the largest rowid in use (the table never
    gets near the 2^63 - 1 rows at which this rule changes). *)
Definition next_rowid (ids : list Z) : Z :=
  match ids with
  | [] => 1
  | i :: rest => 1 + fold_right Z.max i rest
  end.

(** [save_decision]; [now] is [datetime.now().isoformat()]. *)
Definition save_decision (now task decision reasoning : str) (s : db) : db :=
  let id := next_rowid (map d_id (decisions s)) in
  mk_db (decisions s ++ [mk_decision id now task decision reasoning])
        (tasks s).

(** [save_full_plan]: [INSERT OR REPLACE INTO tasks (task, plan, status)].
    REPLACE first deletes the rows that conflict with the new row on a
    uniqueness constraint; the only one of [tasks] is its primary key
    [id], which the statement leaves to SQLite. *)
Definition save_full_plan (task : str) (plan : list str) (s : db) : db :=
  let id := next_rowid (map t_id (tasks s)) in
  let row := mk_task id task (join BAR plan) (lit "planned") in
  mk_db (decisions s)
        (filter (fun r => negb (t_id r =? id)) (tasks s) ++ [row]).

(** A scalar subquery [(SELECT task FROM decisions WHERE id = ?)]: the
    value of the first row found, or NULL ([None]) when there is none. *)
Definition select_task_where_id (id : Z) (ds : list decision_row)
  : option str :=
  option_map d_task (find (fun r => d_id r =? id) ds).

(** SQL [=] between a TEXT column and a possibly NULL value: NULL on the
    right gives NULL ([None]), which is not true. *)
Definition sql_eq (a : str) (b : option str) : option bool :=
  option_map (str_eqb a) b.

Definition sql_true (v : option bool) : bool :=
  match v with
  | Some true => true
  | _ => false
  end.

(** An integer parameter that SQLite can take: a signed 64-bit value.
    [execute] raises OverflowError for any other Python [int]. *)
Definition fits_int64 (n : Z) : bool :=
  (- 2 ^ 63 <=? n) && (n <? 2 ^ 63).

(** [delete_decision], the database it leaves: the two [DELETE]
    statements, in the order of the source; the second one reads the
    [decisions] table the first one left.  The call itself, which raises
    for an id that cannot be bound, is [delete_decision_call] below. *)
Definition delete_decision (decision_id : Z) (s : db) : db :=
  let ds := filter (fun r => negb (d_id r =? decision_id)) (decisions s) in
  let ts :=
    filter (fun r =>
              negb (sql_true
                      (sql_eq (t_task r)
                              (select_task_where_id decision_id ds))))
           (tasks s) in
  mk_db ds ts.

(** [delete_decision(decision_id)] as a call: whether it raised, and the
    database afterwards.  An id outside the signed 64-bit range raises
    OverflowError when the first [execute] binds it, before any statement
    has run; otherwise both statements run and nothing is raised. *)
Definition delete_decision_call (decision_id : Z) (s : db) : exn unit * db :=
  if fits_int64 decision_id
  then (ret tt, delete_decision decision_id s)
  else (None, s).

(** The NUL character, at which SQLite's string functions stop reading. *)
Definition NUL : ascii := chr 0.

(** A text without NUL: one that [LIKE] reads to its end. *)
Definition nul_free (t : str) : bool := negb (contains_char NUL t).

(** SQLite's [LIKE] on texts without NUL: [%] matches any run of
    characters, [_] any one character, and any other character itself, up
    to the case of the letters A-Z and a-z. *)
Definition PERCENT : ascii := chr 37.
Definition UNDERSCORE : ascii := chr 95.

Definition tolower (c : ascii) : ascii :=
  if in_range 65 90 (ord c) then chr (ord c + 32) else c.

Definition like_char (p c : ascii) : bool :=
  Ascii.eqb (tolower p) (tolower c).

Fixpoint like (pat : str) : str -> bool :=
  match pat with
  | [] => fun s => match s with [] => true | _ :: _ => false end
  | p :: pat' =>
      if Ascii.eqb p PERCENT then
        fix any (s : str) : bool :=
          like pat' s || match s with [] => false | _ :: s' => any s' end
      else if Ascii.eqb p UNDERSCORE then
        fun s => match s with [] => false | _ :: s' => like pat' s' end
      else
        fun s => match s with
                 | [] => false
                 | c :: s' => like_char p c && like pat' s'
                 end
  end.

(** [ORDER BY id DESC] *)
Fixpoint insert_desc (r : decision_row) (l : list decision_row)
  : list decision_row :=
  match l with
  | [] => [r]
  | x :: l' => if d_id x <=? d_id r then r :: l else x :: insert_desc r l'
  end.

Definition order_by_id_desc (l : list decision_row) : list decision_row :=
  fold_right insert_desc [] l.

(** [get_recent_decisions]; [None] is the default argument, and a Python
    string is true when it is not empty. *)
Definition truthy (o : option str) : bool :=
  match o with
  | Some (_ :: _) => true
  | _ => false
  end.

Definition like_pattern (task_input : str) : str :=
  PERCENT :: prefix 30 task_input ++ [PERCENT].

Definition get_recent_decisions (task_input : option str) (s : db)
  : list decision_row :=
  if truthy task_input then
    let pat := like_pattern (match task_input with Some t => t | None => [] end) in
    firstn 5 (order_by_id_desc
                (filter (fun r => like pat (d_task r)) (decisions s)))
  else
    firstn 10 (order_by_id_desc (decisions s)).

(** [get_task_plan]: [fetchone] takes the first row of the scan. *)
Definition get_task_plan (task : str) (s : db) : list str :=
  match find (fun r => str_eqb (t_task r) task) (tasks s) with
  | Some row => split BAR (t_plan row)
  | None => []
  end.

(** [str(n)] for a length, as the f-strings of [planner] print it. *)
Definition str_of_nat (n : nat) : str :=
  lit (NilEmpty.string_of_uint (Nat.to_uint n)).

(** [planner], from the completion text on: the plan it returns and the
    database after [save_decision] and [save_full_plan]. *)
Definition planner (now content input : str) (s : db)
  : exn (list str * db) :=
  let task := input in
  plan <- extract_plan content ;;
  let reasoning :=
    lit "Generated " ++ str_of_nat (length plan)
    ++ lit " actionable steps based on task requirements" in
  let s1 :=
    save_decision now task
      (lit "Plan Generated: " ++ str_of_nat (length plan) ++ lit " steps")
      reasoning s in
  ret (plan, save_full_plan task plan s1).

(** The database a call of [planner] leaves: the one it was given if the
    call raised. *)
Definition after_planner (now content input : str) (s : db) : db :=
  match planner now content input s with
  | Some (_, s') => s'
  | None => s
  end.

(** The representation invariant: the rows of each table are listed by
    strictly increasing rowid. *)
Definition rowid_ordered (ids : list Z) : Prop := StronglySorted Z.lt ids.

Definition db_ok (s : db) : Prop :=
  rowid_ordered (map d_id (decisions s)) /\
  rowid_ordered (map t_id (tasks s)).

End Store.

Import Store.

(** ** The words of the specification

    What the specification calls a well-formed numbered line, and the
    step it stands for, written from its sentences and independently of
    [scan_lines]; they are compared with the code below. *)

Module Words.

(** The rest of a line after its first occurrence of [sep] (empty when
    there is none). *)
Fixpoint after_first (sep : ascii) (s : str) : str :=
  match s with
  | [] => []
  | c :: s' => if Ascii.eqb c sep then s' else after_first sep s'
  end.

(** On a trimmed line: the trimmed suffix after the first '.' *)
Definition suffix_of (t : str) : str := strip (after_first DOT t).

(** On a trimmed line: first character a digit, longer than 5 characters,
    a '.' within the first 10 characters, trimmed suffix longer than 10
    characters.  A digit is a character for which [isdigit] holds. *)
Definition well_formed_trimmed (t : str) : bool :=
  match t with
  | [] => false
  | c :: _ => isdigit c
  end
  && (5 <? length t)
  && contains_char DOT (prefix 10 t)
  && (10 <? length (suffix_of t)).

Definition well_formed (l : str) : bool := well_formed_trimmed (strip l).

(** The step of a line: its numbering prefix up to the first '.' removed,
    and the rest trimmed. *)
Definition step_of (l : str) : str := suffix_of (strip l).

(** The well-formed numbered lines of a completion text, in line order. *)
Definition well_formed_lines (content : str) : list str :=
  filter well_formed (split NL content).

(** The same with "digit" read as decimal digit, one of the characters
    0-9: the reading of the specification's sentence. *)
Definition is_decimal (c : ascii) : bool := in_range 48 57 (ord c).

Definition decimal_well_formed_trimmed (t : str) : bool :=
  match t with
  | [] => false
  | c :: _ => is_decimal c
  end
  && (5 <? length t)
  && contains_char DOT (prefix 10 t)
  && (10 <? length (suffix_of t)).

Definition decimal_well_formed (l : str) : bool :=
  decimal_well_formed_trimmed (strip l).

Definition decimal_lines (content : str) : list str :=
  filter decimal_well_formed (split NL content).

(** The trimmed, non-empty lines of a text. *)
Definition trimmed_lines (h : str -> str) (s : str) : list str :=
  filter nonempty (map h (split NL s)).

(** [p in s] for strings: [p] occurs in [s] as a substring. *)
Fixpoint starts_with (p s : str) : bool :=
  match p, s with
  | [], _ => true
  | _ :: _, [] => false
  | c :: p', d :: s' => Ascii.eqb c d && starts_with p' s'
  end.

Fixpoint is_substring (p s : str) : bool :=
  starts_with p s ||
  match s with
  | [] => false
  | _ :: s' => is_substring p s'
  end.

(** Descending order of id, large and strict. *)
Definition ge_id (a b : decision_row) : Prop := (d_id b <= d_id a)%Z.
Definition gt_id (a b : decision_row) : Prop := (d_id b < d_id a)%Z.

(** [res] is the [limit] most recent rows of [rows] that satisfy [keep],
    by descending id: at most [limit] rows, all of them kept rows of the
    table, in strictly descending order of id, and every kept row left
    out is older than each of the [limit] rows returned. *)
Definition most_recent (limit : nat) (keep : decision_row -> bool)
                       (rows res : list decision_row) : Prop :=
  length res <= limit
  /\ (forall r, In r res -> In r rows /\ keep r = true)
  /\ StronglySorted gt_id res
  /\ (forall r, In r rows -> keep r = true -> ~ In r res ->
      length res = limit /\ forall r', In r' res -> (d_id r < d_id r')%Z).

End Words.

Import Words.

(** ** Example data *)

Module Examples.

(** The completion text of the SaaS-dashboard scenario. *)
Definition dashboard_text : str :=
  lit "1. Set up cloud infra" ++ NL ::
  lit "2. Configure CI/CD" ++ NL ::
  lit "3. Build dashboard UI" ++ NL ::
  lit "4. Add auth" ++ NL ::
  lit "5. Deploy to staging".

Definition dashboard_five : list str :=
  [lit "Set up cloud infra"; lit "Configure CI/CD";
   lit "Build dashboard UI"; lit "Add auth"; lit "Deploy to staging"].

Definition dashboard_four : list str :=
  [lit "Set up cloud infra"; lit "Configure CI/CD";
   lit "Build dashboard UI"; lit "Deploy to staging"].

(** Six well-formed lines, the first one indented. *)
Definition six_lines : str :=
  lit "  1. Collect the requirements" ++ NL ::
  lit "2. Design the data model" ++ NL ::
  lit "3. Implement the service" ++ NL ::
  lit "4. Write the test suite" ++ NL ::
  lit "5. Deploy to production" ++ NL ::
  lit "6. Monitor the dashboards".

(** A line led by the superscript two (U+00B2), then five lines led by
    decimal digits. *)
Definition superscript_text : str :=
  (chr 178 :: lit ". Superscript led line") ++ NL ::
  lit "1. Collect the requirements" ++ NL ::
  lit "2. Design the data model" ++ NL ::
  lit "3. Implement the service" ++ NL ::
  lit "4. Write the test suite" ++ NL ::
  lit "5. Deploy to production".

(** A preamble and two well-formed lines. *)
Definition two_lines : str :=
  lit "Sure, here's a plan:" ++ NL ::
  lit "1. Collect the requirements" ++ NL ::
  lit "2. Design the data model".

(** The database after one planning of the SaaS-dashboard task, from a
    database file that did not exist. *)
Definition dashboard_task : str := lit "Launch new SaaS dashboard".

Definition planned_db : db :=
  after_planner (lit "2025-01-01T10:00:00.000000") dashboard_text
                dashboard_task (init_db None).

(** The same task planned a second time, with another completion. *)
Definition replanned_db : db :=
  after_planner (lit "2025-01-02T09:30:00.000000") six_lines
                dashboard_task planned_db.

(** Two plans for the same task. *)
Definition first_plan : list str := dashboard_four.

Definition second_plan : list str :=
  [lit "Collect the requirements"; lit "Design the data model";
   lit "Implement the service"].

Definition twice_saved_db : db :=
  save_full_plan dashboard_task second_plan
    (save_full_plan dashboard_task first_plan (init_db None)).

(** A database with six decisions: the same task planned six times. *)
Definition busy_db : db :=
  Nat.iter 6
    (after_planner (lit "2025-01-03T08:00:00.000000") two_lines
                   (lit "Write the release notes"))
    (init_db None).

End Examples.

Import Examples.

(** ** The page script: what it reads from the store

    The pure parts of the Streamlit script (lines 162-171 and 179-199):
    the values it takes from the store functions before it renders them. *)

Module Ui.

(** [recent = get_recent_decisions(current_task)] and, under
    [if recent and len(recent) > 0], [latest = recent[0]]; [None] when the
    expander is not drawn. *)
Definition latest_decision (current_task : str) (s : db)
  : option decision_row :=
  match get_recent_decisions (Some current_task) s with
  | [] => None
  | latest :: _ => Some latest
  end.

(** [len(task_plan)] of [task_plan = get_task_plan(current_task)], the
    number shown in "Plan saved | n steps executed". *)
Definition steps_shown (current_task : str) (s : db) : nat :=
  length (get_task_plan current_task s).

(** The sidebar: [all_decisions = get_recent_decisions()] and the rows of
    [for d in all_decisions[:8]]. *)
Definition sidebar_entries (s : db) : list decision_row :=
  firstn 8 (get_recent_decisions None s).

(** The test [if "Plan Generated" in d['decision']] of a sidebar row. *)
Definition shows_steps (d : decision_row) : bool :=
  is_substring (lit "Plan Generated") (d_decision d).

End Ui.

Import Ui.

(** ** Numbered lists, as the prompt of [planner] asks for them *)

Module Numbered.

(** The line "<i+1>. <step>", for [i] from 0 to 8. *)
Definition numbered_line (i : nat) (step : str) : str :=
  chr (49 + i) :: DOT :: chr 32 :: step.

Fixpoint numbered_from (i : nat) (steps : list str) : list str :=
  match steps with
  | [] => []
  | st :: rest => numbered_line i st :: numbered_from (S i) rest
  end.

(** The completion "1. s1\n2. s2\n..." *)
Definition numbered_list (steps : list str) : str :=
  join NL (numbered_from 0 steps).

(** A step as the extractor produces them: trimmed, on one line, longer
    than 10 characters. *)
Definition clean_step (st : str) : Prop :=
  strip st = st /\ 10 < length st /\ contains_char NL st = false.

End Numbered.

Import Numbered.

(** * Properties *)

(** ** Python strings *)

Section StrFacts.

Variable sep : ascii.

Lemma split_nonempty (s : str) : split sep s <> [].
Proof.
  destruct s as [|c s]; simpl; [discriminate|].
  destruct (Ascii.eqb c sep); [discriminate|].
  destruct (split sep s); discriminate.
Qed.

Lemma split_cons_sep (s : str) : split sep (sep :: s) = [] :: split sep s.
Proof. simpl. now rewrite Ascii.eqb_refl. Qed.

Lemma split_cons_other (c : ascii) (s w : str) (ws : list str) :
  c <> sep -> split sep s = w :: ws -> split sep (c :: s) = (c :: w) :: ws.
Proof.
  intros Hc Hs. simpl. rewrite Hs.
  destruct (Ascii.eqb_spec c sep); [contradiction|reflexivity].
Qed.

(** Appending a separator opens a new, empty piece. *)
Lemma split_snoc_sep (s : str) : split sep (s ++ [sep]) = split sep s ++ [[]].
Proof.
  induction s as [|c s IH]; simpl.
  - now rewrite Ascii.eqb_refl.
  - destruct (Ascii.eqb c sep); rewrite IH; [reflexivity|].
    destruct (split sep s) as [|w ws] eqn:E; [now apply split_nonempty in E|].
    reflexivity.
Qed.

(** Appending another character extends the last piece. *)
Lemma split_snoc_other (c : ascii) (s : str) :
  c <> sep ->
  forall ini lw, split sep s = ini ++ [lw] ->
                 split sep (s ++ [c]) = ini ++ [lw ++ [c]].
Proof.
  intros Hc. induction s as [|d s IH]; intros ini lw E; simpl in *.
  - destruct ini as [|x ini]; [|destruct ini; discriminate].
    injection E as <-. destruct (Ascii.eqb_spec c sep); [contradiction|reflexivity].
  - destruct (Ascii.eqb d sep).
    + destruct ini as [|x ini]; simpl in E.
      * injection E as _ E. now apply split_nonempty in E.
      * injection E as <- E. rewrite (IH _ _ E). reflexivity.
    + destruct (split sep s) as [|w ws] eqn:Es; [now apply split_nonempty in Es|].
      destruct ini as [|x ini]; simpl in E.
      * injection E as <- ->. rewrite (IH [] w eq_refl). reflexivity.
      * injection E as <- ->. rewrite (IH (w :: ini) lw eq_refl). reflexivity.
Qed.

Lemma split_rev (s : str) : split sep (rev s) = rev (map (@rev ascii) (split sep s)).
Proof.
  induction s as [|c s IH]; [reflexivity|].
  cbn [rev]. destruct (Ascii.eqb_spec c sep) as [->|Hc].
  - rewrite split_snoc_sep, split_cons_sep, IH. reflexivity.
  - destruct (split sep s) as [|w ws] eqn:Es; [now apply split_nonempty in Es|].
    rewrite split_cons_other with (w := w) (ws := ws) by assumption.
    cbn [map rev] in *.
    now apply split_snoc_other.
Qed.

(** Lines of a text and of its two halves around a separator. *)
Lemma split_app_sep (a b : str) :
  split sep (a ++ sep :: b) = split sep a ++ split sep b.
Proof.
  induction a as [|c a IH]; simpl.
  - now rewrite Ascii.eqb_refl.
  - rewrite IH. destruct (Ascii.eqb c sep); [reflexivity|].
    destruct (split sep a) as [|w ws] eqn:E; [now apply split_nonempty in E|].
    reflexivity.
Qed.

End StrFacts.

(** On the characters below 128 the digits are 0-9. *)
Lemma isdigit_ascii (c : ascii) :
  ord c < 128 -> isdigit c = in_range 48 57 (ord c).
Proof.
  unfold isdigit. intros H.
  destruct (Nat.eqb_spec (ord c) 178); [lia|].
  destruct (Nat.eqb_spec (ord c) 179); [lia|].
  destruct (Nat.eqb_spec (ord c) 185); [lia|].
  now rewrite !orb_false_r.
Qed.

Section StripFacts.

Lemma lstrip_space (c : ascii) (s : str) :
  isspace c = true -> lstrip (c :: s) = lstrip s.
Proof. intros H. simpl. now rewrite H. Qed.

(** A trailing white-space character survives [lstrip] unless the whole
    string is white space. *)
Lemma lstrip_snoc_space (c : ascii) (s : str) :
  isspace c = true ->
  lstrip (s ++ [c]) = lstrip s ++ [c] \/
  (lstrip (s ++ [c]) = [] /\ lstrip s = []).
Proof.
  intros Hc. induction s as [|d s IH]; simpl.
  - rewrite Hc. now right.
  - destruct (isspace d); [exact IH | now left].
Qed.

Lemma rstrip_snoc_space (c : ascii) (s : str) :
  isspace c = true -> rstrip (s ++ [c]) = rstrip s.
Proof.
  intros Hc. unfold rstrip. rewrite rev_app_distr. simpl. now rewrite Hc.
Qed.

Lemma strip_nil : strip [] = [].
Proof. reflexivity. Qed.

Lemma strip_cons_space (c : ascii) (s : str) :
  isspace c = true -> strip (c :: s) = strip s.
Proof. intros H. unfold strip. now rewrite lstrip_space. Qed.

Lemma strip_snoc_space (c : ascii) (s : str) :
  isspace c = true -> strip (s ++ [c]) = strip s.
Proof.
  intros Hc. unfold strip.
  destruct (lstrip_snoc_space c s Hc) as [E | [E1 E2]].
  - rewrite E. now apply rstrip_snoc_space.
  - now rewrite E1, E2.
Qed.

Lemma nonempty_rev (s : str) : nonempty (rev s) = nonempty s.
Proof.
  destruct s as [|c s]; [reflexivity|]. simpl.
  destruct (rev s); reflexivity.
Qed.

(** Trimming the text on the left does not change its trimmed lines,
    for any line normaliser [h] that ignores leading white space. *)
Lemma trimmed_lines_lstrip (h : str -> str) :
  h [] = [] ->
  (forall c w, isspace c = true -> h (c :: w) = h w) ->
  forall s, trimmed_lines h (lstrip s) = trimmed_lines h s.
Proof.
  intros Hnil Hsp. induction s as [|c s IH]; [reflexivity|].
  simpl lstrip. destruct (isspace c) eqn:Hc; [|reflexivity].
  rewrite IH. unfold trimmed_lines.
  destruct (Ascii.eqb_spec c NL) as [->|Hn].
  - rewrite split_cons_sep. simpl. now rewrite Hnil.
  - destruct (split NL s) as [|w ws] eqn:Es; [now apply split_nonempty in Es|].
    rewrite split_cons_other with (w := w) (ws := ws) by assumption.
    simpl. now rewrite Hsp.
Qed.

Lemma filter_rev {A} (f : A -> bool) (l : list A) :
  filter f (rev l) = rev (filter f l).
Proof.
  induction l as [|x l IH]; [reflexivity|].
  simpl. rewrite filter_app, IH. simpl.
  destruct (f x); simpl; [reflexivity | now rewrite app_nil_r].
Qed.

(** The trimmed lines of a reversed text. *)
Lemma trimmed_lines_rev (h : str -> str) (s : str) :
  trimmed_lines h (rev s) =
  rev (trimmed_lines (fun l => h (rev l)) s).
Proof.
  unfold trimmed_lines. rewrite split_rev, map_rev, filter_rev, map_map.
  reflexivity.
Qed.

Lemma trimmed_lines_ext (h k : str -> str) (s : str) :
  (forall l, h l = k l) -> trimmed_lines h s = trimmed_lines k s.
Proof.
  intros E. unfold trimmed_lines. f_equal. apply map_ext, E.
Qed.

Lemma trimmed_lines_rstrip (s : str) :
  trimmed_lines strip (rstrip s) = trimmed_lines strip s.
Proof.
  unfold rstrip. rewrite trimmed_lines_rev.
  rewrite trimmed_lines_lstrip.
  - rewrite trimmed_lines_rev, rev_involutive.
    apply trimmed_lines_ext. intros l. now rewrite rev_involutive.
  - reflexivity.
  - intros c w Hc. simpl. now apply strip_snoc_space.
Qed.

(** [planner] trims the completion text before it splits it; the
    trimmed non-empty lines are those of the text itself. *)
Lemma trimmed_lines_strip (s : str) :
  trimmed_lines strip (strip s) = trimmed_lines strip s.
Proof.
  unfold strip at 2. rewrite trimmed_lines_rstrip.
  apply trimmed_lines_lstrip; [reflexivity | apply strip_cons_space].
Qed.

End StripFacts.

(** ** The plan extractor *)

Section ScanFacts.

Lemma in_firstn {A} (n : nat) (l : list A) (x : A) :
  In x (firstn n l) -> In x l.
Proof.
  intros H. rewrite <- (firstn_skipn n l). apply in_or_app. now left.
Qed.

Lemma contains_char_firstn (c : ascii) (n : nat) (s : str) :
  contains_char c (prefix n s) = true -> contains_char c s = true.
Proof.
  unfold contains_char, prefix. rewrite !existsb_exists.
  intros [x [Hin Hx]]. exists x. split; [|exact Hx].
  now apply (in_firstn n).
Qed.

(** When the separator occurs, [split(sep, 1)] has two parts and the
    second is what follows the first occurrence. *)
Lemma split1_after_first (sep : ascii) (s : str) :
  contains_char sep s = true ->
  exists before, split1 sep s = [before; after_first sep s].
Proof.
  unfold contains_char. induction s as [|c s IH]; simpl; [discriminate|].
  rewrite (Ascii.eqb_sym sep c). destruct (Ascii.eqb c sep); simpl.
  - intros _. now exists [].
  - intros H. destruct (IH H) as [b ->]. now exists (c :: b).
Qed.

Lemma candidate_eq (t : str) :
  candidate t =
  ret (match t with [] => false | c :: _ => isdigit c end && (5 <? length t)).
Proof.
  destruct t as [|c t]; [reflexivity|].
  unfold candidate. cbn [nonempty index nth_error bind].
  destruct (isdigit c); reflexivity.
Qed.

(** The two tests of the loop body accept a trimmed line exactly when it
    is well formed, and then append its step. *)
Lemma body_well_formed (t : str) (plan : list str) :
  well_formed_trimmed t = true ->
  candidate t = ret true /\ extract_step t plan = ret (plan ++ [suffix_of t]).
Proof.
  rewrite candidate_eq. unfold well_formed_trimmed, extract_step.
  intros H. apply andb_prop in H as [H H4]. apply andb_prop in H as [H H3].
  split; [now rewrite H|].
  rewrite H3. destruct (split1_after_first DOT t) as [b ->].
  - now apply contains_char_firstn with (n := 10).
  - change (1 <? length [b; after_first DOT t]) with true.
    cbn [index nth_error bind]. fold (suffix_of t).
    rewrite H4. destruct (suffix_of t); [discriminate H4 | reflexivity].
Qed.

Lemma body_not_well_formed (t : str) (plan : list str) :
  well_formed_trimmed t = false ->
  candidate t = ret false \/
  (candidate t = ret true /\ extract_step t plan = ret plan).
Proof.
  rewrite candidate_eq. unfold well_formed_trimmed, extract_step. intros H.
  destruct (match t with [] => false | c :: _ => isdigit c end
            && (5 <? length t)) eqn:Hc; [right; split; [reflexivity|] | now left].
  rewrite andb_true_l in H.
  destruct (contains_char DOT (prefix 10 t)) eqn:H3; [|reflexivity].
  rewrite andb_true_l in H.
  destruct (split1_after_first DOT t) as [b ->].
  - now apply contains_char_firstn with (n := 10).
  - change (1 <? length [b; after_first DOT t]) with true.
    cbn [index nth_error bind]. fold (suffix_of t).
    rewrite H. now rewrite andb_false_r.
Qed.

(** The loop in closed form: it raises nothing, and appends the steps of
    the well-formed lines, in order, until the plan has five elements. *)
Lemma scan_lines_closed (lines : list str) :
  forall plan, length plan < 5 ->
    scan_lines lines plan =
    ret (plan ++ firstn (5 - length plan)
                        (map step_of (filter well_formed lines))).
Proof.
  induction lines as [|l lines IH]; intros plan Hlen.
  - simpl. rewrite firstn_nil. now rewrite app_nil_r.
  - cbn [scan_lines filter]. unfold well_formed at 1.
    destruct (well_formed_trimmed (strip l)) eqn:W.
    + destruct (body_well_formed (strip l) plan W) as [-> ->].
      fold (step_of l). cbn [map bind ret].
      rewrite length_app. cbn [length].
      destruct (Nat.leb_spec 5 (length plan + 1)) as [H5|H5].
      * replace (5 - length plan) with 1 by lia. reflexivity.
      * rewrite IH by (rewrite length_app; simpl; lia).
        rewrite length_app. cbn [length].
        replace (5 - length plan) with (S (5 - (length plan + 1))) by lia.
        cbn [firstn]. now rewrite <- app_assoc.
    + destruct (body_not_well_formed (strip l) plan W) as [-> | [-> ->]].
      * cbn [bind ret]. now apply IH.
      * cbn [bind ret].
        destruct (Nat.leb_spec 5 (length plan)); [lia | now apply IH].
Qed.

(** The padding loop in closed form. *)
Lemma pad_closed (plan : list str) :
  pad plan = plan ++ repeat FILLER (3 - length plan).
Proof.
  functional induction (pad plan) as [plan Hlt IH | plan Hge].
  - apply Nat.ltb_lt in Hlt. rewrite IH, length_app. cbn [length].
    replace (3 - length plan) with (S (3 - (length plan + 1))) by lia.
    cbn [repeat]. now rewrite <- app_assoc.
  - apply Nat.ltb_ge in Hge. replace (3 - length plan) with 0 by lia.
    simpl. now rewrite app_nil_r.
Qed.

Lemma filter_map_comm {A B} (f : B -> bool) (g : A -> B) (l : list A) :
  filter f (map g l) = map g (filter (fun x => f (g x)) l).
Proof.
  induction l as [|x l IH]; [reflexivity|].
  simpl. destruct (f (g x)); simpl; now rewrite IH.
Qed.

Lemma filter_filter_implied {A} (f g : A -> bool) (l : list A) :
  (forall x, f x = true -> g x = true) ->
  filter f (filter g l) = filter f l.
Proof.
  intros Himp. induction l as [|x l IH]; [reflexivity|].
  simpl. destruct (g x) eqn:G; simpl.
  - now rewrite IH.
  - destruct (f x) eqn:F; [|exact IH]. apply Himp in F. congruence.
Qed.

Lemma well_formed_trimmed_nonempty (t : str) :
  well_formed_trimmed t = true -> nonempty t = true.
Proof. destruct t; [discriminate | reflexivity]. Qed.

(** The steps of the well-formed lines, through the trimmed lines. *)
Lemma steps_through_trimmed (s : str) :
  map step_of (filter well_formed (split NL s)) =
  map suffix_of (filter well_formed_trimmed (trimmed_lines strip s)).
Proof.
  unfold trimmed_lines.
  rewrite (filter_filter_implied _ _ _ well_formed_trimmed_nonempty).
  rewrite filter_map_comm, map_map. reflexivity.
Qed.

(** The steps the loop sees after [content.strip()] are the steps of the
    well-formed lines of [content]. *)
Lemma steps_of_stripped (content : str) :
  map step_of (filter well_formed (split NL (strip content))) =
  map step_of (well_formed_lines content).
Proof.
  unfold well_formed_lines.
  now rewrite !steps_through_trimmed, trimmed_lines_strip.
Qed.

(** The steps accepted by the scan of [extract_plan]. *)
Lemma scan_of_content (content : str) :
  scan_lines (split NL (strip content)) [] =
  ret (map step_of (firstn 5 (well_formed_lines content))).
Proof.
  rewrite scan_lines_closed by (simpl; lia).
  cbn [length app]. change (5 - 0) with 5.
  now rewrite steps_of_stripped, firstn_map.
Qed.

Lemma extract_plan_closed (content : str) :
  let real := map step_of (firstn 5 (well_formed_lines content)) in
  extract_plan content = ret (real ++ repeat FILLER (3 - length real)).
Proof.
  unfold extract_plan. cbv zeta. rewrite scan_of_content.
  unfold bind, ret. now rewrite pad_closed.
Qed.

Lemma well_formed_lines_app (a b : str) :
  well_formed_lines (a ++ NL :: b) = well_formed_lines a ++ well_formed_lines b.
Proof.
  unfold well_formed_lines. now rewrite split_app_sep, filter_app.
Qed.

End ScanFacts.

(** C3 (as stated, refuted): on the completion text of the SaaS-dashboard
    scenario the extractor does not return the five steps of the
    specification. *)
Lemma dashboard_five_refuted :
  extract_plan dashboard_text <> ret dashboard_five.
Proof. vm_compute. discriminate. Qed.

(** C3 (amended): on the completion text of the SaaS-dashboard scenario the
    extractor returns exactly four steps, in order: the line "4. Add auth"
    is a candidate, but its step "Add auth" has 8 characters, which does
    not exceed 10, so the line is not well formed and is skipped. *)
Theorem dashboard_four_steps :
  extract_plan dashboard_text = ret dashboard_four
  /\ candidate (strip (lit "4. Add auth")) = ret true
  /\ step_of (lit "4. Add auth") = lit "Add auth"
  /\ length (lit "Add auth") = 8
  /\ well_formed (lit "4. Add auth") = false.
Proof. vm_compute. repeat split. Qed.

(** C4: for every input text the extractor returns a plan and raises
    nothing (the scan is a structural recursion on the lines, the padding
    loop is well founded, and neither [line[0]] nor [parts[1]] is out of
    range); the plan has at least 3 and at most 5 steps; on a text with no
    well-formed numbered line it is exactly three filler steps. *)
Theorem extract_plan_bounds (content : str) :
  exists plan,
    extract_plan content = ret plan
    /\ 3 <= length plan <= 5
    /\ (well_formed_lines content = [] -> plan = [FILLER; FILLER; FILLER]).
Proof.
  eexists. split; [apply extract_plan_closed|]. cbv zeta. split.
  - rewrite length_app, repeat_length, length_map.
    pose proof (firstn_le_length 5 (well_formed_lines content)). lia.
  - intros ->. reflexivity.
Qed.

(** A refusal without any numbered line gives three filler steps. *)
Lemma extract_plan_bounds_witness :
  well_formed_lines (lit "Sorry, I cannot help with that.") = []
  /\ extract_plan (lit "Sorry, I cannot help with that.")
     = ret [FILLER; FILLER; FILLER].
Proof.
  split; [reflexivity|].
  destruct (extract_plan_bounds (lit "Sorry, I cannot help with that."))
    as [plan [E [_ H]]].
  rewrite E, (H eq_refl). reflexivity.
Defined.

(** The two readings of "digit" select the same lines of a text in which
    no trimmed line begins with a digit character other than 0-9. *)
Lemma decimal_lines_agree (content : str) :
  (forall l, In l (split NL content) ->
             match strip l with
             | [] => True
             | c :: _ => isdigit c = is_decimal c
             end) ->
  decimal_lines content = well_formed_lines content.
Proof.
  intros H. apply filter_ext_in. intros l Hl. specialize (H l Hl).
  unfold decimal_well_formed, well_formed,
    decimal_well_formed_trimmed, well_formed_trimmed.
  destruct (strip l) as [|c t]; [reflexivity|]. now rewrite H.
Qed.

Lemma fits_int64_bounds :
  fits_int64 (- 2 ^ 63)%Z = true /\ fits_int64 (2 ^ 63 - 1)%Z = true
  /\ fits_int64 (- 2 ^ 63 - 1)%Z = false /\ fits_int64 (2 ^ 63)%Z = false.
Proof. repeat split. Qed.

(** C5 (as stated, refuted): with "digit" read as decimal digit, the text
    that begins with a line led by the superscript two has five well-formed
    lines, and the extractor does not return their five steps: it accepts
    the superscript line first, and returns its step and the steps of the
    first four decimal lines. *)
Lemma decimal_digit_refuted :
  5 <= length (decimal_lines superscript_text)
  /\ extract_plan superscript_text
     <> ret (map step_of (firstn 5 (decimal_lines superscript_text)))
  /\ extract_plan superscript_text
     = ret [lit "Superscript led line"; lit "Collect the requirements";
            lit "Design the data model"; lit "Implement the service";
            lit "Write the test suite"].
Proof.
  split; [vm_compute; lia|]. split; [vm_compute; discriminate | reflexivity].
Qed.

(** C5 (amended): for every completion text with at least 5 well-formed
    numbered lines (on the trimmed line: first character a digit in the
    sense of [str.isdigit], that is 0-9 or another digit character such
    as a superscript digit, more than 5 characters, a '.' within the first 10
    characters, trimmed suffix after the first '.' of more than 10
    characters), the extractor returns exactly 5 steps: the steps of the
    first 5 well-formed lines, in line order, each with its numbering
    prefix up to the first '.' removed; and the scan stops there: whatever
    lines follow the text do not change the result. *)
Theorem five_well_formed_lines (content : str) :
  5 <= length (well_formed_lines content) ->
  extract_plan content
  = ret (map step_of (firstn 5 (well_formed_lines content)))
  /\ length (map step_of (firstn 5 (well_formed_lines content))) = 5
  /\ forall more, extract_plan (content ++ NL :: more) = extract_plan content.
Proof.
  intros H5.
  assert (E : forall c, 5 <= length (well_formed_lines c) ->
                        extract_plan c
                        = ret (map step_of (firstn 5 (well_formed_lines c)))).
  { intros c Hc. rewrite extract_plan_closed. cbv zeta.
    rewrite length_map, length_firstn.
    replace (3 - Nat.min 5 (length (well_formed_lines c))) with 0 by lia.
    simpl. now rewrite app_nil_r. }
  split; [now apply E|]. split.
  - rewrite length_map, length_firstn. lia.
  - intros more. rewrite (E _ H5), E.
    + rewrite well_formed_lines_app, firstn_app.
      replace (5 - length (well_formed_lines content)) with 0 by lia.
      simpl. now rewrite app_nil_r.
    + rewrite well_formed_lines_app, length_app. lia.
Qed.

(** The six-line completion gives the steps of its first five lines. *)
Lemma five_well_formed_lines_witness :
  5 <= length (well_formed_lines six_lines)
  /\ extract_plan six_lines
     = ret (map step_of (firstn 5 (well_formed_lines six_lines))).
Proof.
  assert (H : 5 <= length (well_formed_lines six_lines)) by (vm_compute; lia).
  split; [exact H|]. exact (proj1 (five_well_formed_lines six_lines H)).
Defined.

(** C6: the filler "Review and validate implementation" is appended to the
    steps accepted by the scan until the plan has exactly 3 elements when
    fewer than 3 were accepted, and is not added when 3 or more were; a
    text with no well-formed line gives three filler steps, and a text
    with exactly two well-formed lines gives their two steps followed by
    one filler step. *)
Theorem filler_policy (content : str) :
  let scanned := map step_of (firstn 5 (well_formed_lines content)) in
  scan_lines (split NL (strip content)) [] = ret scanned
  /\ extract_plan content
     = ret (scanned ++ repeat FILLER (3 - length scanned))
  /\ (length scanned < 3 ->
      length (scanned ++ repeat FILLER (3 - length scanned)) = 3)
  /\ (3 <= length scanned -> extract_plan content = ret scanned)
  /\ (well_formed_lines content = [] ->
      extract_plan content = ret [FILLER; FILLER; FILLER])
  /\ (forall l1 l2, well_formed_lines content = [l1; l2] ->
      extract_plan content = ret [step_of l1; step_of l2; FILLER]).
Proof.
  cbv zeta. split; [apply scan_of_content|].
  split; [apply extract_plan_closed|]. split; [|split; [|split]].
  - intros H. rewrite length_app, repeat_length. lia.
  - intros H. rewrite extract_plan_closed. cbv zeta.
    replace (3 - _) with 0 by lia. simpl. now rewrite app_nil_r.
  - intros E. rewrite extract_plan_closed, E. reflexivity.
  - intros l1 l2 E. rewrite extract_plan_closed, E. reflexivity.
Qed.

(** Two well-formed lines, none, and six. *)
Lemma filler_policy_witness :
  (well_formed_lines two_lines
   = [lit "1. Collect the requirements"; lit "2. Design the data model"]
   /\ extract_plan two_lines
      = ret [lit "Collect the requirements"; lit "Design the data model";
             FILLER])
  /\ (well_formed_lines (lit "TBD") = []
      /\ extract_plan (lit "TBD") = ret [FILLER; FILLER; FILLER])
  /\ (3 <= length (map step_of (firstn 5 (well_formed_lines six_lines)))
      /\ extract_plan six_lines
         = ret (map step_of (firstn 5 (well_formed_lines six_lines)))).
Proof.
  destruct (filler_policy two_lines) as [_ [_ [_ [_ [_ F2]]]]].
  destruct (filler_policy (lit "TBD")) as [_ [_ [_ [_ [F0 _]]]]].
  destruct (filler_policy six_lines) as [_ [_ [_ [F6 _]]]].
  assert (H6 : 3 <= length (map step_of (firstn 5 (well_formed_lines six_lines))))
    by (vm_compute; lia).
  split; [split; [reflexivity | exact (F2 _ _ eq_refl)] |].
  split; [split; [reflexivity | exact (F0 eq_refl)] |].
  split; [exact H6 | exact (F6 H6)].
Defined.

(** ** The decision store *)

Section RowidFacts.

Local Open Scope Z_scope.

Lemma fold_max_ge (i : Z) (l : list Z) :
  i <= fold_right Z.max i l /\ Forall (fun x => x <= fold_right Z.max i l) l.
Proof.
  induction l as [|x l [IH1 IH2]]; cbn [fold_right].
  - split; [lia | constructor].
  - split; [lia|]. constructor; [lia|].
    eapply Forall_impl; [|exact IH2]. cbv beta. intros; lia.
Qed.

(** The rowid of a new row is larger than every rowid in use. *)
Lemma next_rowid_fresh (ids : list Z) :
  Forall (fun x => x < next_rowid ids) ids.
Proof.
  destruct ids as [|i l]; [constructor|]. unfold next_rowid.
  destruct (fold_max_ge i l) as [H1 H2].
  constructor; [lia|]. eapply Forall_impl; [|exact H2]. cbv beta. intros; lia.
Qed.

Lemma rowid_ordered_snoc (ids : list Z) :
  rowid_ordered ids -> rowid_ordered (ids ++ [next_rowid ids]).
Proof.
  unfold rowid_ordered. intros H.
  pose proof (next_rowid_fresh ids) as F. revert F.
  generalize (next_rowid ids) as n.
  induction H as [|x l Hs IH Hx]; intros n F; simpl.
  - repeat constructor.
  - inversion F; subst. constructor; [now apply IH|].
    apply Forall_app. split; [exact Hx | now repeat constructor].
Qed.

Lemma rowid_ordered_filter {A} (f : A -> Z) (p : A -> bool) (l : list A) :
  rowid_ordered (map f l) -> rowid_ordered (map f (filter p l)).
Proof.
  unfold rowid_ordered. induction l as [|x l IH]; simpl; intros H; [constructor|].
  inversion H as [|? ? Hs Hx]; subst. destruct (p x); simpl; [|now apply IH].
  constructor; [now apply IH|].
  rewrite Forall_forall in *. intros y Hy. apply Hx.
  rewrite in_map_iff in *. destruct Hy as [z [<- Hz]].
  exists z. split; [reflexivity|]. now apply filter_In in Hz.
Qed.

Lemma rowid_ordered_NoDup (ids : list Z) : rowid_ordered ids -> NoDup ids.
Proof.
  unfold rowid_ordered. induction 1 as [|x l Hs IH Hx]; constructor; [|exact IH].
  intros Hin. rewrite Forall_forall in Hx. specialize (Hx _ Hin). lia.
Qed.

(** A new row replaces no row: its fresh rowid conflicts with none. *)
Lemma no_rowid_conflict {A} (f : A -> Z) (l : list A) :
  filter (fun r => negb (f r =? next_rowid (map f l))) l = l.
Proof.
  pose proof (next_rowid_fresh (map f l)) as F. revert F.
  generalize (next_rowid (map f l)) as n. intros n F.
  induction l as [|x l IH]; [reflexivity|].
  simpl in *. inversion F; subst.
  destruct (Z.eqb_spec (f x) n); [lia|]. simpl. now rewrite IH.
Qed.

End RowidFacts.

Section StoreFacts.

Local Open Scope Z_scope.

Lemma db_ok_init : db_ok (init_db None).
Proof. split; constructor. Qed.

Lemma db_ok_save_decision now task decision reasoning s :
  db_ok s -> db_ok (save_decision now task decision reasoning s).
Proof.
  intros [Hd Ht]. split; [|exact Ht]. simpl.
  rewrite map_app. simpl. now apply rowid_ordered_snoc.
Qed.

(** [save_full_plan] always adds a row. *)
Lemma save_full_plan_tasks task plan s :
  tasks (save_full_plan task plan s) =
  tasks s ++ [mk_task (next_rowid (map t_id (tasks s))) task
                      (join BAR plan) (lit "planned")].
Proof. unfold save_full_plan. simpl. now rewrite no_rowid_conflict. Qed.

Lemma db_ok_save_full_plan task plan s :
  db_ok s -> db_ok (save_full_plan task plan s).
Proof.
  intros [Hd Ht]. split; [exact Hd|].
  rewrite save_full_plan_tasks, map_app. simpl. now apply rowid_ordered_snoc.
Qed.

Lemma filter_true {A} (l : list A) : filter (fun _ => true) l = l.
Proof. induction l; simpl; congruence. Qed.

(** Once the row is deleted, the subquery of the second [DELETE] finds
    nothing. *)
Lemma select_after_delete id ds :
  select_task_where_id id (filter (fun r => negb (d_id r =? id)) ds) = None.
Proof.
  unfold select_task_where_id.
  induction ds as [|r ds IH]; [reflexivity|].
  simpl. destruct (d_id r =? id) eqn:E; simpl; [exact IH|].
  now rewrite E.
Qed.

(** So [delete_decision] never deletes a row of [tasks]. *)
Lemma delete_decision_tasks id s : tasks (delete_decision id s) = tasks s.
Proof.
  unfold delete_decision. simpl. rewrite select_after_delete. simpl.
  apply filter_true.
Qed.

Lemma delete_decision_decisions id s :
  decisions (delete_decision id s) =
  filter (fun r => negb (d_id r =? id)) (decisions s).
Proof. reflexivity. Qed.

Lemma db_ok_delete_decision id s : db_ok s -> db_ok (delete_decision id s).
Proof.
  intros [Hd Ht]. split.
  - rewrite delete_decision_decisions. now apply rowid_ordered_filter.
  - now rewrite delete_decision_tasks.
Qed.

Lemma db_ok_planner now content input s :
  db_ok s -> db_ok (after_planner now content input s).
Proof.
  intros H. unfold after_planner, planner.
  destruct (extract_plan content) as [plan|]; cbn [bind ret]; [|exact H].
  now apply db_ok_save_full_plan, db_ok_save_decision.
Qed.

Lemma str_eqb_refl (a : str) : str_eqb a a = true.
Proof. unfold str_eqb. destruct (list_eq_dec ascii_dec a a); congruence. Qed.

Lemma str_eqb_neq (a b : str) : a <> b -> str_eqb a b = false.
Proof. unfold str_eqb. destruct (list_eq_dec ascii_dec a b); congruence. Qed.

End StoreFacts.

Section JoinSplit.

Variable sep : ascii.

Lemma split_no_sep (w : str) :
  contains_char sep w = false -> split sep w = [w].
Proof.
  unfold contains_char. induction w as [|c w IH]; simpl; [reflexivity|].
  rewrite (Ascii.eqb_sym sep c). destruct (Ascii.eqb c sep); simpl; [discriminate|].
  intros H. now rewrite (IH H).
Qed.

(** Splitting a joined list splits each of its elements. *)
Lemma split_join (l : list str) :
  l <> [] -> split sep (join sep l) = concat (map (split sep) l).
Proof.
  induction l as [|w l IH]; [congruence|]. intros _.
  destruct l as [|w2 l].
  - simpl. now rewrite app_nil_r.
  - change (join sep (w :: w2 :: l)) with (w ++ sep :: join sep (w2 :: l)).
    rewrite split_app_sep, IH by discriminate. reflexivity.
Qed.

Lemma split_length_pos (w : str) : 1 <= length (split sep w).
Proof.
  pose proof (split_nonempty sep w). destruct (split sep w); simpl; [congruence|lia].
Qed.

Lemma split_length_sep (w : str) :
  contains_char sep w = true -> 2 <= length (split sep w).
Proof.
  unfold contains_char. induction w as [|c w IH]; simpl; [discriminate|].
  rewrite (Ascii.eqb_sym sep c). destruct (Ascii.eqb c sep); simpl.
  - intros _. pose proof (split_length_pos w). lia.
  - intros H. specialize (IH H).
    destruct (split sep w); simpl in *; lia.
Qed.

Lemma join_split_id (l : list str) :
  l <> [] -> (forall w, In w l -> contains_char sep w = false) ->
  split sep (join sep l) = l.
Proof.
  intros Hne Hl. rewrite split_join by assumption. clear Hne.
  induction l as [|w l IH]; [reflexivity|].
  simpl. rewrite split_no_sep by (apply Hl; now left).
  simpl. f_equal. apply IH. intros x Hx. apply Hl. now right.
Qed.

Lemma concat_split_length (l : list str) :
  length l <= length (concat (map (split sep) l)).
Proof.
  induction l as [|w l IH]; simpl; [lia|].
  rewrite length_app. pose proof (split_length_pos w). lia.
Qed.

Lemma join_split_longer (l : list str) :
  (exists w, In w l /\ contains_char sep w = true) ->
  length l < length (split sep (join sep l)).
Proof.
  intros [w [Hin Hw]].
  rewrite split_join by (intros ->; contradiction).
  induction l as [|x l IH]; [contradiction|].
  simpl. rewrite length_app. destruct Hin as [-> | Hin].
  - pose proof (split_length_sep w Hw). pose proof (concat_split_length l). lia.
  - specialize (IH Hin). pose proof (split_length_pos x). lia.
Qed.

End JoinSplit.

Section PlanLookup.

Lemma find_app_none {A} (f : A -> bool) (l1 l2 : list A) :
  (forall x, In x l1 -> f x = false) -> find f (l1 ++ l2) = find f l2.
Proof.
  induction l1 as [|x l1 IH]; intros H; [reflexivity|].
  simpl. rewrite (H x) by now left. apply IH. intros y Hy. apply H. now right.
Qed.

(** The plan read back for a task that had no row is the split of the
    joined plan. *)
Lemma get_after_save task plan s :
  (forall r, In r (tasks s) -> t_task r <> task) ->
  get_task_plan task (save_full_plan task plan s) = split BAR (join BAR plan).
Proof.
  intros H. unfold get_task_plan. rewrite save_full_plan_tasks.
  rewrite find_app_none.
  - simpl. now rewrite str_eqb_refl.
  - intros r Hr. apply str_eqb_neq. now apply H.
Qed.

End PlanLookup.

(** C1 (the code departs from the claim): [delete_decision] leaves the
    TaskPlan in place.  It deletes the DecisionRecord first, so the
    subquery of its second statement finds no record and no [tasks] row is
    deleted: for every database and id the plan lookup of every task is
    what it was before; on the database left by one planning, deleting
    record 1 empties [decisions] and the lookup of its task still returns
    the four steps. *)
Theorem delete_decision_keeps_plan :
  (forall id s task,
      get_task_plan task (delete_decision id s) = get_task_plan task s)
  /\ decisions (delete_decision 1%Z planned_db) = []
  /\ tasks (delete_decision 1%Z planned_db) = tasks planned_db
  /\ get_task_plan dashboard_task (delete_decision 1%Z planned_db)
     = dashboard_four.
Proof.
  split.
  - intros id s task. unfold get_task_plan. now rewrite delete_decision_tasks.
  - vm_compute. repeat split.
Qed.

(** C2 (the code departs from the claim): the [tasks] table has no
    uniqueness constraint on [task], so [INSERT OR REPLACE] never replaces:
    two saves for the same task leave two rows, and the lookup returns the
    steps of the first plan. *)
Theorem second_save_appends :
  (forall task p1 p2 s,
      length (tasks (save_full_plan task p2 (save_full_plan task p1 s)))
      = 2 + length (tasks s))
  /\ length (filter (fun r => str_eqb (t_task r) dashboard_task)
                    (tasks twice_saved_db)) = 2
  /\ get_task_plan dashboard_task twice_saved_db = first_plan
  /\ get_task_plan dashboard_task twice_saved_db <> second_plan.
Proof.
  split.
  - intros. rewrite !save_full_plan_tasks, !length_app. simpl. lia.
  - vm_compute. repeat split. discriminate.
Qed.

(** C8 (as stated, refuted): 2^63 is the id of no stored record, and the
    call raises (OverflowError, when the first [execute] binds the id)
    instead of returning. *)
Lemma delete_unbindable_id_raises :
  (forall r, In r (decisions planned_db) -> d_id r <> (2 ^ 63)%Z)
  /\ fst (delete_decision_call (2 ^ 63)%Z planned_db) = None.
Proof.
  split; [|reflexivity].
  intros r [<- | []]. vm_compute. discriminate.
Qed.

(** C8 (amended): for every database and every id that identifies no
    stored DecisionRecord, [delete_decision] leaves both tables as they
    were; when the id is in the signed 64-bit range the call returns and
    raises nothing, and when it is not the call raises. *)
Theorem delete_missing_id_noop (id : Z) (s : db) :
  (forall r, In r (decisions s) -> d_id r <> id) ->
  snd (delete_decision_call id s) = s
  /\ decisions (snd (delete_decision_call id s)) = decisions s
  /\ tasks (snd (delete_decision_call id s)) = tasks s
  /\ (fits_int64 id = true -> delete_decision_call id s = (ret tt, s))
  /\ (fits_int64 id = false -> fst (delete_decision_call id s) = None).
Proof.
  intros H.
  assert (D : delete_decision id s = s).
  { assert (E : decisions (delete_decision id s) = decisions s).
    { rewrite delete_decision_decisions.
      induction (decisions s) as [|r l IH]; [reflexivity|].
      simpl. destruct (Z.eqb_spec (d_id r) id) as [Heq|Hne].
      - exfalso. apply (H r); [now left | exact Heq].
      - simpl. f_equal. apply IH. intros x Hx. apply H. now right. }
    pose proof (delete_decision_tasks id s) as T.
    destruct s as [ds ts]. unfold delete_decision in *. simpl in *.
    congruence. }
  assert (C : snd (delete_decision_call id s) = s).
  { unfold delete_decision_call. destruct (fits_int64 id); [exact D | reflexivity]. }
  split; [exact C|]. rewrite C. split; [reflexivity|]. split; [reflexivity|].
  unfold delete_decision_call. split; intros F; rewrite F; [|reflexivity].
  now rewrite D.
Qed.

(** Deleting record 7 of a database whose only record is 1. *)
Lemma delete_missing_id_noop_witness :
  delete_decision_call 7%Z planned_db = (ret tt, planned_db).
Proof.
  apply (delete_missing_id_noop 7%Z planned_db).
  - intros r [<- | []]. vm_compute. discriminate.
  - reflexivity.
Defined.

(** C9: for a task with no TaskPlan row yet and a non-empty plan whose
    steps are non-empty and contain no '|', saving the plan and reading it
    back returns the plan; if a step contains '|', what is read back is not
    the plan (it has more steps). *)
Theorem plan_round_trip (task : str) (plan : list str) (s : db) :
  (forall r, In r (tasks s) -> t_task r <> task) ->
  plan <> [] ->
  ((forall step, In step plan -> step <> [] /\ contains_char BAR step = false) ->
   get_task_plan task (save_full_plan task plan s) = plan)
  /\ ((exists step, In step plan /\ contains_char BAR step = true) ->
      get_task_plan task (save_full_plan task plan s) <> plan
      /\ length plan < length (get_task_plan task (save_full_plan task plan s))).
Proof.
  intros Hfresh Hne. rewrite get_after_save by assumption. split.
  - intros Hsteps. apply join_split_id; [assumption|].
    intros w Hw. now apply Hsteps.
  - intros Hbar. pose proof (join_split_longer BAR plan Hbar) as L.
    split; [|exact L]. intros E. rewrite E in L. lia.
Qed.

(** The four dashboard steps come back; a step with a bar does not. *)
Lemma plan_round_trip_witness :
  get_task_plan dashboard_task
    (save_full_plan dashboard_task dashboard_four (init_db None))
  = dashboard_four
  /\ get_task_plan dashboard_task
       (save_full_plan dashboard_task [lit "Build A|B test harness"] (init_db None))
     <> [lit "Build A|B test harness"].
Proof.
  split.
  - apply (plan_round_trip dashboard_task dashboard_four (init_db None)).
    + intros r [].
    + discriminate.
    + intros step Hin. split.
      * intros ->. vm_compute in Hin. intuition discriminate.
      * vm_compute in Hin.
        destruct Hin as [<- | [<- | [<- | [<- | []]]]]; reflexivity.
  - apply (plan_round_trip dashboard_task [lit "Build A|B test harness"] (init_db None)).
    + intros r [].
    + discriminate.
    + exists (lit "Build A|B test harness"). split; [now left | reflexivity].
Defined.

Section Ordering.

Local Open Scope Z_scope.

Lemma insert_desc_perm r l : Permutation (insert_desc r l) (r :: l).
Proof.
  induction l as [|x l IH]; simpl; [reflexivity|].
  destruct (d_id x <=? d_id r); [reflexivity|].
  rewrite IH. apply perm_swap.
Qed.

Lemma order_by_id_desc_perm l : Permutation (order_by_id_desc l) l.
Proof.
  induction l as [|x l IH]; simpl; [reflexivity|].
  rewrite insert_desc_perm. now apply perm_skip.
Qed.

Lemma insert_desc_sorted r l :
  StronglySorted ge_id l -> StronglySorted ge_id (insert_desc r l).
Proof.
  induction 1 as [|x l Hs IH Hx]; simpl; [repeat constructor|].
  destruct (Z.leb_spec (d_id x) (d_id r)) as [Hle|Hlt].
  - constructor; [now constructor|].
    constructor; [exact Hle|].
    eapply Forall_impl; [|exact Hx]. unfold ge_id. intros; lia.
  - constructor; [exact IH|].
    apply (Permutation_Forall (Permutation_sym (insert_desc_perm r l))).
    constructor; [unfold ge_id; lia | exact Hx].
Qed.

Lemma order_by_id_desc_sorted l : StronglySorted ge_id (order_by_id_desc l).
Proof.
  induction l as [|x l IH]; simpl; [constructor | now apply insert_desc_sorted].
Qed.

(** With unique ids the order is strict. *)
Lemma sorted_strict l :
  StronglySorted ge_id l -> NoDup (map d_id l) -> StronglySorted gt_id l.
Proof.
  induction 1 as [|x l Hs IH Hx]; intros Hn; [constructor|].
  simpl in Hn. inversion Hn as [|? ? Hnotin Hn']; subst.
  constructor; [now apply IH|].
  rewrite Forall_forall in *. intros y Hy. specialize (Hx y Hy).
  unfold ge_id, gt_id in *.
  assert (d_id y <> d_id x); [|lia].
  intros E. apply Hnotin. rewrite <- E. now apply in_map.
Qed.

Lemma strongly_sorted_app {A} (R : A -> A -> Prop) (a b : list A) :
  StronglySorted R (a ++ b) ->
  StronglySorted R a /\ forall x y, In x a -> In y b -> R x y.
Proof.
  induction a as [|z a IH]; simpl; intros H.
  - split; [constructor | contradiction].
  - apply StronglySorted_inv in H as [Hs Hz]. destruct (IH Hs) as [Ha Hab].
    apply Forall_app in Hz as [Hza Hzb]. split; [now constructor|].
    intros x y [<- | Hx] Hy; [|now apply Hab].
    rewrite Forall_forall in Hzb. now apply Hzb.
Qed.

Lemma filter_none {A} (p : A -> bool) (l : list A) :
  (forall x, In x l -> p x = false) -> filter p l = [].
Proof.
  induction l as [|x l IH]; intros H; [reflexivity|].
  simpl. rewrite (H x) by now left.
  apply IH. intros y Hy. apply H. now right.
Qed.

(** The rows kept by a [WHERE] clause still have distinct ids. *)
Lemma distinct_ids_filter keep rows :
  NoDup (map d_id rows) -> NoDup (map d_id (filter keep rows)).
Proof.
  intros Hn. induction rows as [|x rows IH]; simpl in *; [constructor|].
  inversion Hn as [|? ? Hnotin Hn']; subst.
  destruct (keep x); simpl; [|now apply IH].
  constructor; [|now apply IH].
  intros Hin. apply Hnotin. rewrite in_map_iff in *.
  destruct Hin as [y [E Hy]]. exists y. split; [exact E|].
  now apply filter_In in Hy.
Qed.

(** [WHERE keep ORDER BY id DESC LIMIT limit] returns the [limit] most
    recent kept rows. *)
Lemma select_most_recent limit keep rows :
  NoDup (map d_id rows) ->
  most_recent limit keep rows
              (firstn limit (order_by_id_desc (filter keep rows))).
Proof.
  intros Hn.
  set (sorted := order_by_id_desc (filter keep rows)).
  assert (P : Permutation sorted (filter keep rows))
    by apply order_by_id_desc_perm.
  assert (S : StronglySorted gt_id sorted).
  { apply sorted_strict; [apply order_by_id_desc_sorted|].
    apply (Permutation_NoDup (Permutation_map d_id (Permutation_sym P))).
    now apply distinct_ids_filter. }
  rewrite <- (firstn_skipn limit sorted) in S.
  apply strongly_sorted_app in S as [S1 S2].
  assert (K : forall r, In r (firstn limit sorted) ->
                        In r rows /\ keep r = true).
  { intros r Hr. apply in_firstn in Hr. apply (Permutation_in _ P) in Hr.
    now apply filter_In in Hr. }
  split; [apply firstn_le_length|]. split; [exact K|]. split; [exact S1|].
  intros r Hin Hkeep Hout.
  assert (Hs : In r (skipn limit sorted)).
  { assert (Hr : In r sorted).
    { apply (Permutation_in _ (Permutation_sym P)). now apply filter_In. }
    rewrite <- (firstn_skipn limit sorted) in Hr.
    apply in_app_or in Hr as [Hr | Hr]; [contradiction | exact Hr]. }
  split.
  - rewrite length_firstn.
    destruct (Nat.le_gt_cases (length sorted) limit) as [Hle | Hgt]; [|lia].
    rewrite (skipn_all2 _ Hle) in Hs. contradiction.
  - intros r' Hr'. exact (S2 r' r Hr' Hs).
Qed.

End Ordering.

Section LikeFacts.

Lemma like_char_refl c : like_char c c = true.
Proof. unfold like_char. apply Ascii.eqb_refl. Qed.

(** The equations of [like]. *)
Lemma like_percent pat s :
  like (PERCENT :: pat) s =
  like pat s || match s with [] => false | _ :: s' => like (PERCENT :: pat) s' end.
Proof. destruct s; reflexivity. Qed.

Lemma like_all s : like [PERCENT] s = true.
Proof.
  induction s as [|c s IH]; [reflexivity|].
  rewrite like_percent, IH. apply orb_true_r.
Qed.

(** A pattern followed by [%] matches every text that starts with the
    pattern read as plain text. *)
Lemma like_prefix p b : like (p ++ [PERCENT]) (p ++ b) = true.
Proof.
  induction p as [|c p IH]; [apply like_all|].
  destruct (Ascii.eqb c PERCENT) eqn:E1.
  - apply Ascii.eqb_eq in E1. subst c.
    change ((PERCENT :: p) ++ [PERCENT]) with (PERCENT :: (p ++ [PERCENT])).
    rewrite like_percent. cbn [app]. rewrite like_percent, IH.
    rewrite orb_true_l. apply orb_true_r.
  - simpl. rewrite E1. destruct (Ascii.eqb c UNDERSCORE); [exact IH|].
    now rewrite like_char_refl, IH.
Qed.

Lemma like_skip pat a s :
  like pat s = true -> like (PERCENT :: pat) (a ++ s) = true.
Proof.
  intros H. induction a as [|c a IH].
  - simpl app. rewrite like_percent, H. reflexivity.
  - cbn [app]. rewrite like_percent, IH. apply orb_true_r.
Qed.

Lemma starts_with_app p s :
  starts_with p s = true -> exists b, s = p ++ b.
Proof.
  revert s. induction p as [|c p IH]; intros s H; [now exists s|].
  destruct s as [|d s]; [discriminate|]. simpl in H.
  apply andb_prop in H as [E H]. apply Ascii.eqb_eq in E. subst d.
  destruct (IH _ H) as [b ->]. now exists b.
Qed.

Lemma is_substring_app p s :
  is_substring p s = true -> exists a b, s = a ++ p ++ b.
Proof.
  induction s as [|c s IH]; simpl; intros H.
  - rewrite orb_false_r in H. apply starts_with_app in H as [b E].
    now exists [], b.
  - apply orb_prop in H as [H | H].
    + apply starts_with_app in H as [b E]. now exists [], b.
    + destruct (IH H) as [a [b ->]]. now exists (c :: a), b.
Qed.

(** A task that contains the first 30 characters of the filter matches
    the pattern of [get_recent_decisions]. *)
Lemma like_substring f task :
  is_substring (prefix 30 f) task = true ->
  like (like_pattern f) task = true.
Proof.
  intros H. apply is_substring_app in H as [a [b ->]].
  unfold like_pattern. apply like_skip, like_prefix.
Qed.

End LikeFacts.

(** C7 (as stated, refuted): the records returned for the filter "launch"
    are not the most recent records whose task contains "launch" as a
    substring: the record of the task "Launch new SaaS dashboard" is
    returned, and its task does not contain "launch". *)
Lemma recent_filter_not_substring :
  ~ most_recent 5
      (fun r => is_substring (prefix 30 (lit "launch")) (d_task r))
      (decisions planned_db)
      (get_recent_decisions (Some (lit "launch")) planned_db).
Proof.
  intros [_ [H _]].
  destruct (H (mk_decision 1%Z (lit "2025-01-01T10:00:00.000000")
                 dashboard_task (lit "Plan Generated: 4 steps")
                 (lit "Generated 4 actionable steps based on task requirements")))
    as [_ E].
  - vm_compute. now left.
  - vm_compute in E. discriminate.
Qed.

(** C7 (amended): for every database whose tasks hold no NUL character,
    the query with a non-empty filter without NUL in its first 30
    characters returns the (at most) 5 most recent DecisionRecords, by
    descending id, whose task matches the SQLite pattern [%p%], [p] the
    first 30 characters of the filter, under [LIKE]: letters match without
    regard to case, and a [%] or [_] of the filter is a wildcard; a task
    that contains [p] as a substring matches; if no record matches, the
    result is the empty sequence.  Without a filter, and for every
    database, it returns the (at most) 10 most recent records by
    descending id. *)
Theorem recent_decisions (s : db) :
  db_ok s ->
  (forall f, f <> [] ->
     nul_free (prefix 30 f) = true ->
     (forall r, In r (decisions s) -> nul_free (d_task r) = true) ->
     let keep := fun r => like (like_pattern f) (d_task r) in
     most_recent 5 keep (decisions s) (get_recent_decisions (Some f) s)
     /\ (forall r, is_substring (prefix 30 f) (d_task r) = true -> keep r = true)
     /\ ((forall r, In r (decisions s) -> keep r = false) ->
         get_recent_decisions (Some f) s = []))
  /\ most_recent 10 (fun _ => true) (decisions s) (get_recent_decisions None s).
Proof.
  intros [Hd _]. apply rowid_ordered_NoDup in Hd. split.
  - intros f Hf _ _ keep. destruct f as [|c f]; [congruence|].
    unfold get_recent_decisions. cbn [truthy]. fold keep. split; [|split].
    + now apply select_most_recent.
    + intros r. apply like_substring.
    + intros Hnone.
      now rewrite (filter_none keep (decisions s) Hnone).
  - unfold get_recent_decisions. cbn [truthy].
    rewrite <- (filter_true (decisions s)) at 2.
    now apply select_most_recent.
Qed.

(** The database after two plannings of the dashboard task. *)
Lemma recent_decisions_witness :
  db_ok replanned_db
  /\ most_recent 5 (fun r => like (like_pattern (lit "launch")) (d_task r))
       (decisions replanned_db)
       (get_recent_decisions (Some (lit "launch")) replanned_db)
  /\ get_recent_decisions (Some (lit "onboarding")) replanned_db = []
  /\ most_recent 10 (fun _ => true) (decisions replanned_db)
       (get_recent_decisions None replanned_db).
Proof.
  assert (Hok : db_ok replanned_db).
  { unfold replanned_db, planned_db.
    apply db_ok_planner, db_ok_planner, db_ok_init. }
  assert (Hnul : forall r, In r (decisions replanned_db) ->
                           nul_free (d_task r) = true).
  { intros r Hr. vm_compute in Hr.
    destruct Hr as [<- | [<- | []]]; reflexivity. }
  pose proof (recent_decisions replanned_db Hok) as [F N].
  split; [exact Hok|]. split; [|split; [|exact N]].
  - apply (F (lit "launch")); [discriminate | reflexivity | exact Hnul].
  - apply (F (lit "onboarding")); [discriminate | reflexivity | exact Hnul |].
    intros r Hr. vm_compute in Hr.
    destruct Hr as [<- | [<- | []]]; reflexivity.
Defined.

(** C10: the empty string as filter is the absent filter: the query run
    is the unfiltered one, so the result is the (at most) 10 most recent
    records and not the (at most) 5 of the filtered form; on a database
    with six decisions it has six records, where the filtered form with the
    pattern [%%] would have five. *)
Theorem empty_filter_is_no_filter (s : db) :
  get_recent_decisions (Some []) s = get_recent_decisions None s
  /\ (db_ok s ->
      most_recent 10 (fun _ => true) (decisions s)
                  (get_recent_decisions (Some []) s))
  /\ length (get_recent_decisions (Some []) busy_db) = 6
  /\ length (firstn 5 (order_by_id_desc
                         (filter (fun r => like (like_pattern []) (d_task r))
                                 (decisions busy_db)))) = 5.
Proof.
  split; [reflexivity|]. split; [|split; reflexivity].
  intros [Hd _]. apply rowid_ordered_NoDup in Hd.
  unfold get_recent_decisions. cbn [truthy].
  rewrite <- (filter_true (decisions s)) at 2.
  now apply select_most_recent.
Qed.

(** The database with six decisions. *)
Lemma empty_filter_is_no_filter_witness :
  db_ok busy_db
  /\ most_recent 10 (fun _ => true) (decisions busy_db)
                 (get_recent_decisions (Some []) busy_db).
Proof.
  assert (Hok : db_ok busy_db).
  { unfold busy_db. cbn [Nat.iter]. repeat apply db_ok_planner. apply db_ok_init. }
  split; [exact Hok|].
  exact (proj1 (proj2 (empty_filter_is_no_filter busy_db)) Hok).
Defined.

(** * Further properties of the store *)

Section NewestFirst.

Local Open Scope Z_scope.

(** A row with the largest id comes first under [ORDER BY id DESC]. *)
Lemma order_newest_first (l : list decision_row) (r : decision_row) :
  (forall x, In x l -> d_id x < d_id r) ->
  order_by_id_desc (l ++ [r]) = r :: order_by_id_desc l.
Proof.
  induction l as [|x l IH]; intros Hlt; [reflexivity|].
  cbn [app order_by_id_desc fold_right].
  change (fold_right insert_desc [] (l ++ [r])) with (order_by_id_desc (l ++ [r])).
  rewrite IH by (intros y Hy; apply Hlt; now right).
  cbn [insert_desc].
  destruct (Z.leb_spec (d_id r) (d_id x)) as [Hle|_]; [|reflexivity].
  specialize (Hlt x (or_introl eq_refl)). lia.
Qed.

Lemma fresh_id_above (s : db) (x : decision_row) :
  In x (decisions s) -> d_id x < next_rowid (map d_id (decisions s)).
Proof.
  intros Hx. pose proof (next_rowid_fresh (map d_id (decisions s))) as F.
  rewrite Forall_forall in F. apply F. now apply in_map.
Qed.

Lemma starts_with_firstn (n : nat) (t : str) : starts_with (firstn n t) t = true.
Proof.
  revert n. induction t as [|c t IH]; intros [|n]; try reflexivity.
  simpl. now rewrite Ascii.eqb_refl, IH.
Qed.

(** A task matches the pattern made from itself. *)
Lemma like_own_task (t : str) : like (like_pattern t) t = true.
Proof.
  apply like_substring. unfold prefix.
  pose proof (starts_with_firstn 30 t) as H.
  destruct t as [|c t]; [reflexivity|].
  cbn [is_substring]. now rewrite H.
Qed.

(** The newest row, when its task is not empty, is the first row of the
    query filtered by that task. *)
Lemma own_task_first (l : list decision_row) (r : decision_row) :
  (forall x, In x l -> d_id x < d_id r) ->
  order_by_id_desc
    (filter (fun x => like (like_pattern (d_task r)) (d_task x)) (l ++ [r]))
  = r :: order_by_id_desc
           (filter (fun x => like (like_pattern (d_task r)) (d_task x)) l).
Proof.
  intros Hlt. rewrite filter_app. cbn [filter]. rewrite like_own_task.
  apply order_newest_first.
  intros x Hx. apply filter_In in Hx as [Hx _]. now apply Hlt.
Qed.

End NewestFirst.

(** X2: the record [save_decision] has just written is the first one of
    the unfiltered [get_recent_decisions], before every older record. *)
Theorem saved_decision_is_latest (now task decision reasoning : str) (s : db) :
  exists r rest,
    get_recent_decisions None (save_decision now task decision reasoning s)
    = r :: rest
    /\ (d_timestamp r, d_task r, d_decision r, d_reasoning r)
       = (now, task, decision, reasoning)
    /\ rest = firstn 9 (get_recent_decisions None s).
Proof.
  unfold get_recent_decisions. cbn [truthy save_decision decisions].
  rewrite order_newest_first by (intros x Hx; now apply fresh_id_above).
  eexists. eexists. split; [reflexivity|]. split; [reflexivity|].
  now rewrite firstn_firstn.
Qed.

(** X3: for a non-empty task, the record [save_decision] has just written
    is also the first one of [get_recent_decisions(task)]: a task matches
    the LIKE pattern made of its own first 30 characters. *)
Theorem saved_decision_matches_own_task
        (now task decision reasoning : str) (s : db) :
  task <> [] ->
  latest_decision task (save_decision now task decision reasoning s)
  = Some (mk_decision (next_rowid (map d_id (decisions s)))
                      now task decision reasoning).
Proof.
  intros Hne. destruct task as [|c t]; [congruence|].
  unfold latest_decision, get_recent_decisions.
  cbn [truthy save_decision decisions].
  set (r := mk_decision _ now (c :: t) decision reasoning).
  change (c :: t) with (d_task r).
  rewrite own_task_first; [reflexivity|].
  intros x Hx. now apply fresh_id_above.
Qed.

(** The task of the dashboard scenario. *)
Lemma saved_decision_matches_own_task_witness :
  latest_decision dashboard_task
    (save_decision (lit "2025-01-01T10:00:00") dashboard_task
                   (lit "Plan Generated: 4 steps") (lit "why") planned_db)
  = Some (mk_decision 2%Z (lit "2025-01-01T10:00:00") dashboard_task
                      (lit "Plan Generated: 4 steps") (lit "why")).
Proof.
  apply (saved_decision_matches_own_task
           (lit "2025-01-01T10:00:00") dashboard_task
           (lit "Plan Generated: 4 steps") (lit "why") planned_db).
  discriminate.
Defined.

Section DeleteFacts.

Local Open Scope Z_scope.

(** Under the table invariant a stored row is known by its id. *)
Lemma same_id_same_row (l : list decision_row) (a b : decision_row) :
  NoDup (map d_id l) -> In a l -> In b l -> d_id a = d_id b -> a = b.
Proof.
  induction l as [|x l IH]; intros Hn Ha Hb E; [contradiction|].
  simpl in Hn. inversion Hn as [|? ? Hnotin Hn']; subst.
  destruct Ha as [-> | Ha], Hb as [-> | Hb]; try reflexivity.
  - exfalso. apply Hnotin. rewrite E. now apply in_map.
  - exfalso. apply Hnotin. rewrite <- E. now apply in_map.
  - now apply IH.
Qed.

Lemma filter_length_remove_one (l : list decision_row) (r : decision_row) :
  NoDup (map d_id l) -> In r l ->
  S (length (filter (fun x => negb (d_id x =? d_id r)) l)) = length l.
Proof.
  induction l as [|x l IH]; intros Hn Hr; [contradiction|].
  simpl in Hn. inversion Hn as [|? ? Hnotin Hn']; subst.
  cbn [filter length]. destruct Hr as [-> | Hr].
  - rewrite Z.eqb_refl. cbn [negb]. f_equal.
    f_equal. clear IH Hn Hn'. induction l as [|y l IH]; [reflexivity|].
    cbn [filter]. destruct (Z.eqb_spec (d_id y) (d_id r)) as [E|_].
    + exfalso. apply Hnotin. rewrite <- E. now left.
    + cbn [negb]. f_equal. apply IH. intros H. apply Hnotin. now right.
  - destruct (Z.eqb_spec (d_id x) (d_id r)) as [E|_].
    + exfalso. apply Hnotin. rewrite E. now apply in_map.
    + cbn [negb length]. f_equal. now apply IH.
Qed.

Lemma filter_idem {A} (p : A -> bool) (l : list A) :
  filter p (filter p l) = filter p l.
Proof.
  induction l as [|x l IH]; [reflexivity|].
  simpl. destruct (p x) eqn:E; simpl; rewrite ?E, IH; reflexivity.
Qed.

End DeleteFacts.

(** X4: deleting the id of a stored record removes that record and no
    other: the records left are the others, in the order they had, and
    there is exactly one fewer. *)
Theorem delete_decision_removes_one (r : decision_row) (s : db) :
  db_ok s -> In r (decisions s) ->
  let s' := delete_decision (d_id r) s in
  ~ In r (decisions s')
  /\ (forall x, In x (decisions s') <-> In x (decisions s) /\ x <> r)
  /\ S (length (decisions s')) = length (decisions s)
  /\ (forall x, In x (decisions s') -> (d_id x <> d_id r)%Z).
Proof.
  intros [Hd _] Hr. apply rowid_ordered_NoDup in Hd. cbv zeta.
  rewrite delete_decision_decisions.
  assert (M : forall x,
             In x (filter (fun x => negb (d_id x =? d_id r)%Z) (decisions s))
             <-> In x (decisions s) /\ x <> r).
  { intros x. rewrite filter_In. split; intros [Hx Hne]; (split; [exact Hx|]).
    - intros ->. rewrite Z.eqb_refl in Hne. discriminate.
    - destruct (Z.eqb_spec (d_id x) (d_id r)) as [E|_]; [|reflexivity].
      exfalso. apply Hne. now apply (same_id_same_row (decisions s)). }
  split; [|split; [exact M|split]].
  - intros H. apply M in H as [_ H]. now apply H.
  - now apply filter_length_remove_one.
  - intros x Hx. apply filter_In in Hx as [_ Hx].
    destruct (Z.eqb_spec (d_id x) (d_id r)); [discriminate | assumption].
Qed.

(** Deleting the first of the two records of the replanned database. *)
Lemma delete_decision_removes_one_witness :
  S (length (decisions (delete_decision 1%Z replanned_db)))
  = length (decisions replanned_db).
Proof.
  assert (Hok : db_ok replanned_db).
  { unfold replanned_db, planned_db.
    apply db_ok_planner, db_ok_planner, db_ok_init. }
  assert (Hin : In (mk_decision 1%Z (lit "2025-01-01T10:00:00.000000")
                      dashboard_task (lit "Plan Generated: 4 steps")
                      (lit "Generated 4 actionable steps based on task requirements"))
                   (decisions replanned_db)) by (vm_compute; now left).
  exact (proj1 (proj2 (proj2 (delete_decision_removes_one _ _ Hok Hin)))).
Defined.

(** X5: deleting the same id a second time changes nothing. *)
Theorem delete_decision_twice (id : Z) (s : db) :
  delete_decision id (delete_decision id s) = delete_decision id s.
Proof.
  assert (D : decisions (delete_decision id (delete_decision id s))
              = decisions (delete_decision id s)).
  { rewrite !delete_decision_decisions. apply filter_idem. }
  assert (T : tasks (delete_decision id (delete_decision id s))
              = tasks (delete_decision id s))
    by apply delete_decision_tasks.
  destruct (delete_decision id (delete_decision id s)) as [d1 t1].
  destruct (delete_decision id s) as [d2 t2]. simpl in *. congruence.
Qed.

(** X6: deleting the record [save_decision] has just written gives back
    the database as it was before the save; the id of the deleted record is
    then free again, and the next [save_decision] takes it: ids are unique
    among the stored records, not over time. *)
Theorem save_then_delete (now task decision reasoning : str) (s : db) :
  let id := next_rowid (map d_id (decisions s)) in
  delete_decision id (save_decision now task decision reasoning s) = s
  /\ forall now' task' decision' reasoning',
       decisions
         (save_decision now' task' decision' reasoning'
            (delete_decision id (save_decision now task decision reasoning s)))
       = decisions s ++ [mk_decision id now' task' decision' reasoning'].
Proof.
  cbv zeta.
  assert (E : delete_decision (next_rowid (map d_id (decisions s)))
                (save_decision now task decision reasoning s) = s).
  { pose proof (delete_decision_tasks (next_rowid (map d_id (decisions s)))
                  (save_decision now task decision reasoning s)) as T.
    pose proof (delete_decision_decisions (next_rowid (map d_id (decisions s)))
                  (save_decision now task decision reasoning s)) as D.
    cbn [save_decision decisions tasks] in T, D.
    rewrite filter_app, no_rowid_conflict in D. cbn [filter d_id] in D.
    rewrite Z.eqb_refl in D. cbn [negb] in D. rewrite app_nil_r in D.
    destruct (delete_decision _ _) as [d t]. destruct s as [ds ts].
    simpl in *. congruence. }
  split; [exact E|]. intros. now rewrite E.
Qed.

Section LookupFacts.

Lemma str_eqb_eq (a b : str) : str_eqb a b = true -> a = b.
Proof. unfold str_eqb. destruct (list_eq_dec ascii_dec a b); [auto|discriminate]. Qed.

Lemma find_app_some {A} (f : A -> bool) (l1 l2 : list A) (x : A) :
  find f l1 = Some x -> find f (l1 ++ l2) = Some x.
Proof.
  induction l1 as [|y l1 IH]; [discriminate|].
  simpl. destruct (f y); [auto | exact IH].
Qed.

Lemma find_row_of_task (task : str) (ts : list task_row) :
  (exists r, In r ts /\ t_task r = task) ->
  exists row, find (fun r => str_eqb (t_task r) task) ts = Some row.
Proof.
  intros [r [Hr E]].
  destruct (find (fun r => str_eqb (t_task r) task) ts) as [row|] eqn:F.
  - now exists row.
  - exfalso. pose proof (find_none _ _ F r Hr) as H. cbv beta in H.
    rewrite E, str_eqb_refl in H. discriminate.
Qed.

End LookupFacts.

(** X7: [get_task_plan] returns the empty list exactly when the [tasks]
    table has no row for the task; when it has one, the list is never
    empty (so [if plan_steps:] in the sidebar tests for a row). *)
Theorem get_task_plan_empty_iff (task : str) (s : db) :
  get_task_plan task s = [] <->
  (forall r, In r (tasks s) -> t_task r <> task).
Proof.
  unfold get_task_plan. split.
  - intros H r Hr E.
    destruct (find_row_of_task task (tasks s)) as [row F]; [now exists r|].
    rewrite F in H. now apply split_nonempty in H.
  - intros H.
    destruct (find (fun r => str_eqb (t_task r) task) (tasks s)) as [row|] eqn:F;
      [|reflexivity].
    apply find_some in F as [Hin E]. apply str_eqb_eq in E.
    exfalso. now apply (H row).
Qed.

(** X8: saving a plan for one task does not change what [get_task_plan]
    returns for another task. *)
Theorem save_full_plan_other_task (task other : str) (plan : list str) (s : db) :
  other <> task ->
  get_task_plan other (save_full_plan task plan s) = get_task_plan other s.
Proof.
  intros Hne. unfold get_task_plan. rewrite save_full_plan_tasks.
  destruct (find (fun r => str_eqb (t_task r) other) (tasks s)) as [row|] eqn:F.
  - now rewrite (find_app_some _ _ _ _ F).
  - rewrite find_app_none by (intros x Hx; exact (find_none _ _ F x Hx)).
    cbn [find t_task]. rewrite str_eqb_neq by congruence. reflexivity.
Qed.

(** A plan saved for another task leaves the dashboard plan in place. *)
Lemma save_full_plan_other_task_witness :
  get_task_plan dashboard_task
    (save_full_plan (lit "Write the release notes") second_plan planned_db)
  = get_task_plan dashboard_task planned_db.
Proof.
  apply (save_full_plan_other_task (lit "Write the release notes")
           dashboard_task second_plan planned_db).
  discriminate.
Defined.

(** X9: once the [tasks] table has a row for a task, saving another plan
    for that task does not change what [get_task_plan] returns for it: the
    lookup keeps returning the plan of the oldest row. *)
Theorem save_full_plan_keeps_first (task : str) (plan : list str) (s : db) :
  (exists r, In r (tasks s) /\ t_task r = task) ->
  get_task_plan task (save_full_plan task plan s) = get_task_plan task s.
Proof.
  intros H. unfold get_task_plan. rewrite save_full_plan_tasks.
  destruct (find_row_of_task task (tasks s) H) as [row F].
  now rewrite (find_app_some _ _ _ _ F), F.
Qed.

(** A second plan for the dashboard task. *)
Lemma save_full_plan_keeps_first_witness :
  get_task_plan dashboard_task
    (save_full_plan dashboard_task second_plan planned_db)
  = get_task_plan dashboard_task planned_db.
Proof.
  apply (save_full_plan_keeps_first dashboard_task second_plan planned_db).
  eexists. split; [left; reflexivity | reflexivity].
Defined.

(** X10: the table invariant (in each table the rows are listed by
    strictly increasing id, hence ids are unique) holds in the new
    database and is kept by every function that writes to the store. *)
Theorem store_invariant :
  db_ok (init_db None)
  /\ (forall now task decision reasoning s,
         db_ok s -> db_ok (save_decision now task decision reasoning s))
  /\ (forall task plan s, db_ok s -> db_ok (save_full_plan task plan s))
  /\ (forall id s, db_ok s -> db_ok (delete_decision id s))
  /\ (forall now content input s,
         db_ok s -> db_ok (after_planner now content input s)).
Proof.
  split; [apply db_ok_init|]. split; [|split; [|split]]; intros.
  - now apply db_ok_save_decision.
  - now apply db_ok_save_full_plan.
  - now apply db_ok_delete_decision.
  - now apply db_ok_planner.
Qed.

(** A save, a plan and a delete from the new database. *)
Lemma store_invariant_witness :
  db_ok (delete_decision 1%Z
           (save_full_plan dashboard_task first_plan
              (save_decision (lit "2025-01-01T10:00:00") dashboard_task
                             (lit "Plan Generated: 4 steps") (lit "why")
                             (init_db None)))).
Proof.
  destruct store_invariant as [I [SD [SP [D _]]]].
  apply D, SP, SD, I.
Defined.



(** X12: the sidebar lists the 8 most recent records, by descending id. *)
Theorem sidebar_most_recent (s : db) :
  db_ok s ->
  most_recent 8 (fun _ => true) (decisions s) (sidebar_entries s).
Proof.
  intros [Hd _]. apply rowid_ordered_NoDup in Hd.
  unfold sidebar_entries, get_recent_decisions. cbn [truthy].
  rewrite firstn_firstn. change (Nat.min 8 10) with 8.
  rewrite <- (filter_true (decisions s)) at 2.
  now apply select_most_recent.
Qed.

(** The sidebar of the database with six decisions. *)
Lemma sidebar_most_recent_witness :
  most_recent 8 (fun _ => true) (decisions busy_db) (sidebar_entries busy_db).
Proof.
  apply (sidebar_most_recent busy_db).
  unfold busy_db. cbn [Nat.iter]. repeat apply db_ok_planner. apply db_ok_init.
Defined.

(** * Further properties of the plan extractor and of [planner] *)

Section TrimFacts.

Lemma lstrip_head (s : str) :
  lstrip s = [] \/ exists c t, lstrip s = c :: t /\ isspace c = false.
Proof.
  induction s as [|c s IH]; [now left|].
  simpl. destruct (isspace c) eqn:E; [exact IH|].
  right. now exists c, s.
Qed.

Lemma lstrip_snoc_nonspace (c : ascii) (s : str) :
  isspace c = false -> lstrip (s ++ [c]) = lstrip s ++ [c].
Proof.
  intros Hc. induction s as [|d s IH]; simpl.
  - now rewrite Hc.
  - destruct (isspace d); [exact IH | reflexivity].
Qed.

Lemma rstrip_cons_nonspace (c : ascii) (s : str) :
  isspace c = false -> rstrip (c :: s) = c :: rstrip s.
Proof.
  intros Hc. unfold rstrip. cbn [rev].
  rewrite lstrip_snoc_nonspace by assumption.
  now rewrite rev_app_distr.
Qed.

Lemma lstrip_fixed (c : ascii) (s : str) :
  isspace c = false -> lstrip (c :: s) = c :: s.
Proof. intros H. simpl. now rewrite H. Qed.

Lemma lstrip_idem (s : str) : lstrip (lstrip s) = lstrip s.
Proof.
  destruct (lstrip_head s) as [-> | [c [t [-> Hc]]]]; [reflexivity|].
  now apply lstrip_fixed.
Qed.

Lemma rstrip_idem (s : str) : rstrip (rstrip s) = rstrip s.
Proof. unfold rstrip. now rewrite rev_involutive, lstrip_idem. Qed.

(** What [strip] returns is empty or begins with a character that is not
    white space. *)
Lemma strip_head (s : str) :
  strip s = [] \/ exists c t, strip s = c :: t /\ isspace c = false.
Proof.
  unfold strip. destruct (lstrip_head s) as [-> | [c [t [-> Hc]]]]; [now left|].
  right. exists c, (rstrip t). split; [now apply rstrip_cons_nonspace | exact Hc].
Qed.

Lemma strip_idem (s : str) : strip (strip s) = strip s.
Proof.
  destruct (strip_head s) as [E | [c [t [E Hc]]]].
  - now rewrite E.
  - unfold strip at 1. rewrite E, lstrip_fixed, <- E by assumption.
    unfold strip. apply rstrip_idem.
Qed.

(** Trimming only removes characters. *)
Lemma lstrip_incl (s : str) : incl (lstrip s) s.
Proof.
  induction s as [|c s IH]; [apply incl_refl|].
  simpl. destruct (isspace c); [now apply incl_tl | apply incl_refl].
Qed.

Lemma strip_incl (s : str) : incl (strip s) s.
Proof.
  unfold strip, rstrip. intros c Hc. apply lstrip_incl.
  apply in_rev. apply (lstrip_incl (rev (lstrip s))). now apply in_rev in Hc.
Qed.

Lemma after_first_incl (sep : ascii) (s : str) : incl (after_first sep s) s.
Proof.
  induction s as [|c s IH]; [apply incl_refl|].
  simpl. destruct (Ascii.eqb c sep); apply incl_tl; [apply incl_refl | exact IH].
Qed.

Lemma step_of_incl (l : str) : incl (step_of l) l.
Proof.
  unfold step_of, suffix_of. intros c Hc.
  apply (strip_incl l), (after_first_incl DOT), (strip_incl _ c Hc).
Qed.

(** The pieces of a split are made of characters of the text, and none of
    them holds the separator. *)
Lemma split_pieces (sep : ascii) (s w : str) :
  In w (split sep s) -> incl w s /\ ~ In sep w.
Proof.
  revert w. induction s as [|c s IH]; intros w Hw.
  - destruct Hw as [<- | []]. split; [apply incl_refl | intros []].
  - simpl in Hw. destruct (Ascii.eqb_spec c sep) as [->|Hne].
    + destruct Hw as [<- | Hw]; [split; [intros x [] | intros []]|].
      destruct (IH w Hw) as [I N]. split; [now apply incl_tl | exact N].
    + destruct (split sep s) as [|v vs] eqn:E; [now apply split_nonempty in E|].
      destruct Hw as [<- | Hw].
      * destruct (IH v (or_introl eq_refl)) as [I N]. split.
        -- intros x [<- | Hx]; [now left | right; now apply I].
        -- intros [H | H]; [congruence | now apply N].
      * destruct (IH w (or_intror Hw)) as [I N].
        split; [now apply incl_tl | exact N].
Qed.

Lemma contains_char_In (c : ascii) (s : str) :
  contains_char c s = true <-> In c s.
Proof.
  unfold contains_char. rewrite existsb_exists. split.
  - intros [x [Hx E]]. apply Ascii.eqb_eq in E. now subst.
  - intros H. exists c. split; [exact H | apply Ascii.eqb_refl].
Qed.

Lemma contains_char_false (c : ascii) (s : str) :
  contains_char c s = false <-> ~ In c s.
Proof.
  rewrite <- contains_char_In.
  destruct (contains_char c s); split; intros H;
    try reflexivity; try discriminate; try (intros E; discriminate).
  exfalso. now apply H.
Qed.

End TrimFacts.

Section PlanSteps.

(** Where the steps of a plan come from: a well-formed line of the
    completion, or the filler. *)
Lemma plan_steps_origin (content : str) (plan : list str) :
  extract_plan content = ret plan ->
  Forall (fun st => st = FILLER \/
                    exists l, In l (well_formed_lines content) /\ st = step_of l)
         plan.
Proof.
  rewrite extract_plan_closed. cbv zeta. unfold ret. intros E.
  assert (E' : map step_of (firstn 5 (well_formed_lines content))
               ++ repeat FILLER
                    (3 - length (map step_of (firstn 5 (well_formed_lines content))))
               = plan) by congruence.
  rewrite <- E'. clear E E'.
  apply Forall_app. split; rewrite Forall_forall; intros st Hst.
  - right. apply in_map_iff in Hst as [l [<- Hl]].
    exists l. split; [now apply in_firstn in Hl | reflexivity].
  - left. now apply repeat_spec in Hst.
Qed.

Lemma well_formed_line_facts (content l : str) :
  In l (well_formed_lines content) ->
  10 < length (step_of l) /\ incl l content /\ ~ In NL l.
Proof.
  unfold well_formed_lines. intros H. apply filter_In in H as [Hin W].
  destruct (split_pieces NL content l Hin) as [I N].
  split; [|now split].
  unfold well_formed, well_formed_trimmed in W.
  apply andb_prop in W as [_ W]. now apply Nat.ltb_lt in W.
Qed.

Lemma planner_result (now content input : str) (s : db) (plan : list str) :
  extract_plan content = ret plan ->
  planner now content input s
  = ret (plan,
         save_full_plan input plan
           (save_decision now input
              (lit "Plan Generated: " ++ str_of_nat (length plan) ++ lit " steps")
              (lit "Generated " ++ str_of_nat (length plan)
               ++ lit " actionable steps based on task requirements") s)).
Proof. intros E. unfold planner. now rewrite E. Qed.

End PlanSteps.

(** X13: [planner] raises nothing, whatever the completion text: it
    returns a plan of 3 to 5 steps, and writes exactly one record to
    [decisions] (for the task, labelled "Plan Generated: n steps" with [n]
    the length of the plan) and exactly one row to [tasks] (the task, the
    steps joined by '|', the status "planned"). *)
Theorem planner_writes (now content input : str) (s : db) :
  exists plan s',
    planner now content input s = ret (plan, s')
    /\ extract_plan content = ret plan
    /\ 3 <= length plan <= 5
    /\ decisions s'
       = decisions s
         ++ [mk_decision (next_rowid (map d_id (decisions s))) now input
               (lit "Plan Generated: " ++ str_of_nat (length plan) ++ lit " steps")
               (lit "Generated " ++ str_of_nat (length plan)
                ++ lit " actionable steps based on task requirements")]
    /\ tasks s'
       = tasks s
         ++ [mk_task (next_rowid (map t_id (tasks s))) input
               (join BAR plan) (lit "planned")].
Proof.
  pose proof (extract_plan_closed content) as E. cbv zeta in E.
  eexists. eexists. split; [apply (planner_result _ _ _ _ _ E)|].
  split; [exact E|]. split; [|split].
  - rewrite length_app, repeat_length, length_map.
    pose proof (firstn_le_length 5 (well_formed_lines content)). lia.
  - reflexivity.
  - now rewrite save_full_plan_tasks.
Qed.

(** X14: after [planner] has run for a non-empty task, the record the
    page shows as the latest decision of that task
    ([get_recent_decisions(current_task)[0]]) is the one [planner] has just
    written, and the sidebar test ["Plan Generated" in d['decision']] holds
    for it. *)
Theorem planner_latest_decision (now content input : str) (s : db) :
  input <> [] ->
  exists plan s' d,
    planner now content input s = ret (plan, s')
    /\ latest_decision input s' = Some d
    /\ d_id d = next_rowid (map d_id (decisions s))
    /\ d_task d = input
    /\ d_timestamp d = now
    /\ d_decision d
       = lit "Plan Generated: " ++ str_of_nat (length plan) ++ lit " steps"
    /\ shows_steps d = true.
Proof.
  intros Hne. destruct input as [|c t]; [congruence|].
  pose proof (extract_plan_closed content) as E. cbv zeta in E.
  eexists. eexists. eexists. split; [apply (planner_result _ _ _ _ _ E)|].
  split.
  - unfold latest_decision, get_recent_decisions.
    cbn [truthy save_full_plan save_decision decisions].
    match goal with
    | |- context [decisions s ++ [?row]] => set (r := row)
    end.
    change (c :: t) with (d_task r).
    rewrite own_task_first; [reflexivity|].
    intros x Hx. now apply fresh_id_above.
  - repeat split.
Qed.

(** The dashboard task, planned on the database with six decisions. *)
Lemma planner_latest_decision_witness :
  exists plan s' d,
    planner (lit "2025-01-04T12:00:00") dashboard_text dashboard_task busy_db
    = ret (plan, s')
    /\ latest_decision dashboard_task s' = Some d
    /\ d_id d = next_rowid (map d_id (decisions busy_db))
    /\ d_task d = dashboard_task
    /\ d_timestamp d = lit "2025-01-04T12:00:00"
    /\ d_decision d
       = lit "Plan Generated: " ++ str_of_nat (length plan) ++ lit " steps"
    /\ shows_steps d = true.
Proof.
  apply (planner_latest_decision (lit "2025-01-04T12:00:00") dashboard_text
           dashboard_task busy_db).
  discriminate.
Defined.

(** X15: every step of a plan the extractor returns is trimmed (no white
    space at either end), lies on one line (no newline in it) and has more
    than 10 characters. *)
Theorem plan_steps_clean (content : str) (plan : list str) :
  extract_plan content = ret plan -> Forall clean_step plan.
Proof.
  intros E. apply plan_steps_origin in E.
  eapply Forall_impl; [|exact E]. cbv beta.
  intros st [-> | [l [Hl ->]]].
  - repeat split; vm_compute; lia.
  - destruct (well_formed_line_facts content l Hl) as [Hlen [_ Hnl]].
    split; [|split].
    + unfold step_of, suffix_of. apply strip_idem.
    + exact Hlen.
    + apply contains_char_false. intros H. apply Hnl.
      now apply (step_of_incl l).
Qed.

(** The plan of two steps and one filler. *)
Lemma plan_steps_clean_witness :
  Forall clean_step
    [lit "Collect the requirements"; lit "Design the data model"; FILLER].
Proof.
  apply (plan_steps_clean two_lines). reflexivity.
Defined.

(** X16: when the completion text has no '|' and the [tasks] table has no
    row for the task yet, the plan [get_task_plan] returns after [planner]
    is the plan [planner] returned, so the page reports its number of
    steps. *)
Theorem planner_plan_round_trip (now content input : str) (s : db) :
  contains_char BAR content = false ->
  (forall r, In r (tasks s) -> t_task r <> input) ->
  exists plan s',
    planner now content input s = ret (plan, s')
    /\ get_task_plan input s' = plan
    /\ steps_shown input s' = length plan.
Proof.
  intros Hbar Hfresh.
  pose proof (extract_plan_closed content) as E. cbv zeta in E.
  remember (map step_of (firstn 5 (well_formed_lines content))
            ++ repeat FILLER
                 (3 - length (map step_of (firstn 5 (well_formed_lines content)))))
    as plan eqn:P.
  pose proof (plan_steps_origin content plan E) as O.
  exists plan. eexists. split; [apply (planner_result _ _ _ _ _ E)|].
  assert (G : forall s1, tasks s1 = tasks s ->
                         get_task_plan input (save_full_plan input plan s1) = plan).
  { intros s1 T. rewrite get_after_save by (rewrite T; exact Hfresh).
    apply join_split_id.
    - intros Hnil. rewrite Hnil in P. apply (f_equal (@length str)) in P.
      rewrite length_app, repeat_length in P. cbn [length] in P. lia.
    - intros w Hw. rewrite Forall_forall in O.
      destruct (O w Hw) as [-> | [l [Hl ->]]]; [reflexivity|].
      apply contains_char_false. intros H.
      apply contains_char_false in Hbar. apply Hbar.
      destruct (well_formed_line_facts content l Hl) as [_ [I _]].
      now apply I, (step_of_incl l). }
  unfold steps_shown. rewrite G by reflexivity. now split.
Qed.

(** The dashboard task planned on the new database. *)
Lemma planner_plan_round_trip_witness :
  exists plan s',
    planner (lit "2025-01-01T10:00:00") dashboard_text dashboard_task
            (init_db None) = ret (plan, s')
    /\ get_task_plan dashboard_task s' = plan
    /\ steps_shown dashboard_task s' = length plan.
Proof.
  apply (planner_plan_round_trip (lit "2025-01-01T10:00:00") dashboard_text
           dashboard_task (init_db None)).
  - reflexivity.
  - intros r [].
Defined.

(** X17: lines that are not well-formed numbered lines are skipped
    wherever they stand: a preamble before the list, or a remark after it,
    does not change the plan. *)
Theorem other_lines_ignored (junk content : str) :
  well_formed_lines junk = [] ->
  extract_plan (junk ++ NL :: content) = extract_plan content
  /\ extract_plan (content ++ NL :: junk) = extract_plan content.
Proof.
  intros H. rewrite !extract_plan_closed. cbv zeta.
  rewrite !well_formed_lines_app, H, app_nil_r. now split.
Qed.

(** The preamble of a chat model. *)
Lemma other_lines_ignored_witness :
  extract_plan (lit "Sure, here's a plan:" ++ NL :: six_lines)
  = extract_plan six_lines.
Proof.
  apply (other_lines_ignored (lit "Sure, here's a plan:") six_lines).
  reflexivity.
Defined.

Section CaseFacts.

Lemma tolower_idem (c : ascii) : tolower (tolower c) = tolower c.
Proof. destruct c as [[] [] [] [] [] [] [] []]; reflexivity. Qed.

Lemma tolower_percent (c : ascii) :
  Ascii.eqb (tolower c) PERCENT = Ascii.eqb c PERCENT.
Proof. destruct c as [[] [] [] [] [] [] [] []]; reflexivity. Qed.

Lemma tolower_underscore (c : ascii) :
  Ascii.eqb (tolower c) UNDERSCORE = Ascii.eqb c UNDERSCORE.
Proof. destruct c as [[] [] [] [] [] [] [] []]; reflexivity. Qed.

(** [LIKE] does not see the case of the letters of its pattern. *)
Lemma like_tolower (p : str) : forall s, like (map tolower p) s = like p s.
Proof.
  induction p as [|c p IH]; intros s; [reflexivity|].
  cbn [map like]. rewrite tolower_percent, tolower_underscore.
  destruct (Ascii.eqb c PERCENT).
  - induction s as [|d s IHs]; [now rewrite IH|].
    rewrite IH. f_equal. exact IHs.
  - destruct (Ascii.eqb c UNDERSCORE).
    + destruct s; [reflexivity | apply IH].
    + destruct s as [|d s]; [reflexivity|].
      unfold like_char. now rewrite tolower_idem, IH.
Qed.

Lemma like_pattern_tolower (f : str) :
  like_pattern (map tolower f) = map tolower (like_pattern f).
Proof.
  unfold like_pattern, prefix. cbn [map]. rewrite map_app, firstn_map.
  reflexivity.
Qed.

Lemma recent_tolower (f : str) (s : db) :
  get_recent_decisions (Some (map tolower f)) s
  = get_recent_decisions (Some f) s.
Proof.
  destruct f as [|c f]; [reflexivity|].
  unfold get_recent_decisions. cbn [truthy map].
  change (tolower c :: map tolower f) with (map tolower (c :: f)).
  rewrite like_pattern_tolower. do 2 f_equal.
  apply filter_ext. intros r. apply like_tolower.
Qed.

End CaseFacts.

(** X18: the filter of [get_recent_decisions] is read without regard to
    the case of its letters: two filters that differ only in the case of
    the letters A-Z give the same records. *)
Theorem recent_filter_ignores_case (f1 f2 : str) (s : db) :
  map tolower f1 = map tolower f2 ->
  get_recent_decisions (Some f1) s = get_recent_decisions (Some f2) s.
Proof.
  intros E. rewrite <- (recent_tolower f1), <- (recent_tolower f2).
  now rewrite E.
Qed.

(** "LAUNCH" and "launch". *)
Lemma recent_filter_ignores_case_witness :
  get_recent_decisions (Some (lit "LAUNCH")) replanned_db
  = get_recent_decisions (Some (lit "launch")) replanned_db.
Proof.
  apply (recent_filter_ignores_case (lit "LAUNCH") (lit "launch") replanned_db).
  reflexivity.
Defined.

Section NumberedFacts.

(** The characters '1' to '9'. *)
Lemma numeral_facts (i : nat) :
  i <= 8 ->
  isdigit (chr (49 + i)) = true /\ isspace (chr (49 + i)) = false
  /\ Ascii.eqb (chr (49 + i)) DOT = false /\ chr (49 + i) <> NL.
Proof.
  intros H.
  do 9 (destruct i as [|i]; [repeat split; discriminate|]). lia.
Qed.

Lemma clean_step_shape (st : str) :
  clean_step st ->
  exists c t, st = c :: t /\ isspace c = false /\ rstrip st = st.
Proof.
  intros [Hs [Hlen _]].
  destruct (strip_head st) as [E | [c [t [E Hc]]]].
  - rewrite Hs in E. subst st. simpl in Hlen. lia.
  - rewrite Hs in E. exists c, t. split; [exact E|]. split; [exact Hc|].
    rewrite <- Hs at 2. unfold strip. rewrite E, lstrip_fixed by assumption.
    reflexivity.
Qed.

(** Text put before a string that ends without white space is kept by
    [rstrip]. *)
Lemma rstrip_app_fixed (a st : str) :
  st <> [] -> rstrip st = st -> rstrip (a ++ st) = a ++ st.
Proof.
  intros Hne Hr. unfold rstrip in *. rewrite rev_app_distr.
  assert (L : lstrip (rev st) = rev st).
  { rewrite <- Hr at 2. now rewrite rev_involutive. }
  destruct (lstrip_head (rev st)) as [E | [c [t [E Hc]]]].
  - rewrite L in E. apply (f_equal (@rev ascii)) in E.
    rewrite rev_involutive in E. contradiction.
  - rewrite L in E. rewrite E. cbn [app]. rewrite lstrip_fixed by assumption.
    change (c :: t ++ rev a) with ((c :: t) ++ rev a).
    rewrite <- E, rev_app_distr, !rev_involutive. reflexivity.
Qed.

(** A numbered clean step is a well-formed line, and its step is the
    clean step. *)
Lemma numbered_line_well_formed (i : nat) (st : str) :
  i <= 8 -> clean_step st ->
  well_formed (numbered_line i st) = true
  /\ step_of (numbered_line i st) = st
  /\ contains_char NL (numbered_line i st) = false.
Proof.
  intros Hi Hc.
  destruct (numeral_facts i Hi) as [Hd [Hsp [Hdot Hnl]]].
  destruct (clean_step_shape st Hc) as [c [t [E [Hcs Hr]]]].
  destruct Hc as [Hs [Hlen Hn]].
  assert (T : strip (numbered_line i st) = numbered_line i st).
  { unfold strip, numbered_line. rewrite lstrip_fixed by assumption.
    change (chr (49 + i) :: DOT :: chr 32 :: st)
      with ([chr (49 + i); DOT; chr 32] ++ st).
    apply rstrip_app_fixed; [rewrite E; discriminate | exact Hr]. }
  assert (Hsuf : suffix_of (numbered_line i st) = st).
  { unfold suffix_of, numbered_line. cbn [after_first]. rewrite Hdot.
    change (Ascii.eqb DOT DOT) with true. cbv iota.
    rewrite strip_cons_space by reflexivity. exact Hs. }
  split; [|split].
  - unfold well_formed. rewrite T. unfold well_formed_trimmed. rewrite Hsuf.
    unfold numbered_line at 1. rewrite Hd.
    apply Nat.ltb_lt in Hlen. rewrite Hlen.
    assert (L : (5 <? length (numbered_line i st)) = true).
    { apply Nat.ltb_lt. unfold numbered_line. cbn [length].
      apply Nat.ltb_lt in Hlen. lia. }
    rewrite L.
    assert (D : contains_char DOT (prefix 10 (numbered_line i st)) = true).
    { unfold contains_char, prefix, numbered_line. cbn [firstn existsb].
      change (Ascii.eqb DOT DOT) with true. now rewrite orb_true_r. }
    now rewrite D.
  - unfold step_of. now rewrite T.
  - apply contains_char_false. unfold numbered_line.
    intros [H | [H | [H | H]]]; try discriminate.
    + now apply Hnl.
    + apply contains_char_false in Hn. now apply Hn.
Qed.

Lemma numbered_from_facts (steps : list str) :
  forall i, i + length steps <= 9 -> Forall clean_step steps ->
    filter well_formed (numbered_from i steps) = numbered_from i steps
    /\ map step_of (numbered_from i steps) = steps
    /\ (forall w, In w (numbered_from i steps) -> contains_char NL w = false).
Proof.
  induction steps as [|st steps IH]; intros i Hi Hc.
  - repeat split. intros w [].
  - inversion Hc as [|? ? Hst Hrest]; subst. cbn [length] in Hi.
    destruct (numbered_line_well_formed i st) as [W [Hstep N]]; [lia | exact Hst|].
    destruct (IH (S i)) as [F [M C]]; [lia | exact Hrest|].
    cbn [numbered_from filter map]. rewrite W, F, Hstep, M.
    repeat split. intros w [<- | Hw]; [exact N | now apply C].
Qed.

Lemma numbered_list_lines (steps : list str) :
  length steps <= 9 -> Forall clean_step steps ->
  map step_of (well_formed_lines (numbered_list steps)) = steps.
Proof.
  intros Hlen Hc.
  destruct (numbered_from_facts steps 0) as [F [M C]]; [lia | exact Hc|].
  unfold well_formed_lines, numbered_list.
  destruct steps as [|st steps]; [reflexivity|].
  rewrite join_split_id; [now rewrite F | discriminate | exact C].
Qed.

End NumberedFacts.

(** X19: the extractor reads back a numbered list: for up to nine clean
    steps (trimmed, on one line, longer than 10 characters) written as
    "1. step", "2. step", ... on successive lines, it returns the first
    five of them, followed by fillers if there are fewer than three; a
    list of three to five steps comes back as it is. *)
Theorem numbered_list_round_trip (steps : list str) :
  length steps <= 9 -> Forall clean_step steps ->
  extract_plan (numbered_list steps)
  = ret (firstn 5 steps ++ repeat FILLER (3 - length steps))
  /\ (3 <= length steps <= 5 ->
      extract_plan (numbered_list steps) = ret steps).
Proof.
  intros Hlen Hc.
  assert (E : extract_plan (numbered_list steps)
              = ret (firstn 5 steps ++ repeat FILLER (3 - length steps))).
  { rewrite extract_plan_closed. cbv zeta.
    rewrite <- firstn_map, numbered_list_lines by assumption.
    rewrite length_firstn.
    replace (3 - Nat.min 5 (length steps)) with (3 - length steps) by lia.
    reflexivity. }
  split; [exact E|]. intros H35. rewrite E.
  rewrite firstn_all2 by lia.
  replace (3 - length steps) with 0 by lia. cbn [repeat].
  now rewrite app_nil_r.
Qed.

(** The four steps of the dashboard plan, numbered. *)
Lemma numbered_list_round_trip_witness :
  extract_plan (numbered_list dashboard_four) = ret dashboard_four.
Proof.
  assert (Hlen : length dashboard_four <= 9) by (vm_compute; lia).
  assert (Hc : Forall clean_step dashboard_four).
  { repeat constructor; vm_compute; lia. }
  apply (proj2 (numbered_list_round_trip dashboard_four Hlen Hc)).
  vm_compute. lia.
Defined.

(** X20: the padding loop keeps the steps it is given and only adds
    fillers after them: the result has [max 3 n] steps for a plan of [n],
    begins with the plan, every added step is the filler, and a plan of
    three or more steps comes back unchanged. *)
Theorem pad_keeps_plan (plan : list str) :
  length (pad plan) = Nat.max 3 (length plan)
  /\ firstn (length plan) (pad plan) = plan
  /\ Forall (fun st => st = FILLER) (skipn (length plan) (pad plan))
  /\ (3 <= length plan -> pad plan = plan)
  /\ pad (pad plan) = pad plan.
Proof.
  assert (K : forall p, 3 <= length p -> pad p = p).
  { intros p H. rewrite pad_closed. replace (3 - length p) with 0 by lia.
    apply app_nil_r. }
  split; [|split; [|split; [|split]]].
  - rewrite pad_closed, length_app, repeat_length. lia.
  - rewrite pad_closed, firstn_app, Nat.sub_diag, firstn_all. cbn [firstn].
    apply app_nil_r.
  - rewrite pad_closed, skipn_app, Nat.sub_diag, skipn_all. cbn [skipn app].
    apply Forall_forall. intros st H. now apply repeat_spec in H.
  - apply K.
  - apply K. rewrite pad_closed, length_app, repeat_length. lia.
Qed.

(** A plan of four steps. *)
Lemma pad_keeps_plan_witness : pad dashboard_four = dashboard_four.
Proof.
  apply (proj1 (proj2 (proj2 (proj2 (pad_keeps_plan dashboard_four))))).
  vm_compute. lia.
Defined.
